(** * Collatz shrubs: the recurrence, the turtle path and the sampling policy

    A shallow embedding of [src/collatz.py], [src/collatz_dash.py] and
    [src/old2.py].

    - Python's [int] is unbounded, so it is [Z]; [//] and [%] are floor
      division and its remainder, which for a positive divisor are
      [Z.div] and [Z.modulo].
    - Python's [float] is IEEE binary64, so it is Rocq's primitive [float];
      [int] to [float] conversion rounds to nearest even and raises
      [OverflowError] instead of producing an infinity.
    - Exceptions are values of [exn]; a computation that may raise returns
      a [result].
    - The [while n != 1] loop need not terminate, so it is run with fuel
      and an [outcome] that keeps "still running" apart from a return and
      from an exception. *)

From Stdlib Require Import ZArith List String Bool Lia Floats FinFun.
From Stdlib Require Uint63.
Import ListNotations.

Local Open Scope string_scope.
Local Open Scope Z_scope.

(** ** Exceptions and results *)

Inductive exn : Type :=
| ValueError (msg : string)
| ZeroDivisionError
| OverflowError.

Inductive result (A : Type) : Type :=
| Return (a : A)
| Raise (e : exn).

Arguments Return {A} a.
Arguments Raise {A} e.

Definition bind {A B : Type} (r : result A) (k : A -> result B) : result B :=
  match r with
  | Return a => k a
  | Raise e => Raise e
  end.

Notation "x <- r ;; k" := (bind r (fun x => k))
  (at level 61, r at next level, right associativity).

(** The message of the [ValueError] that every [next_n] raises. *)
Definition bad_scheme : string := "scheme must be 'binary' or 'ternary'".
Definition bad_mode : string := "mode must be 'binary' or 'ternary'".

(** The loop [while n != 1] may run forever: with [fuel] iterations allowed
    it has returned ([Done]), raised ([Failed]) or is still iterating
    ([Running], with the state it has reached). *)
Inductive outcome (A S : Type) : Type :=
| Done (a : A)
| Failed (e : exn)
| Running (s : S).

Arguments Done {A S} a.
Arguments Failed {A S} e.
Arguments Running {A S} s.

(** ** Python numbers *)

(** [float(n)] for an [int]: the nearest binary64 value, ties to even;
    [OverflowError] where that would be an infinity. *)
Definition float_of_int (n : Z) : result float :=
  match binary_normalize prec emax n 0 false with
  | S754_infinity _ => Raise OverflowError
  | f => Return (SF2Prim f)
  end.

(** [math.pi] and [math.radians], which multiplies by [pi / 180]. *)
Definition pi : float := 0x1.921fb54442d18p+1%float.
Definition radians (deg : float) : float := (deg * (pi / 180))%float.

(** [range(a, b)], as the list of its elements. *)
Definition range (a b : Z) : list Z :=
  map (fun i => a + Z.of_nat i) (seq 0 (Z.to_nat (b - a))).

(** [v in l] for a list of integers. *)
Definition mem (v : Z) (l : list Z) : bool := existsb (Z.eqb v) l.

(** The C library behind [math.log], [math.cos] and [math.sin]: the source
    fixes none of their values, so the loop is stated over any such
    functions. *)
Record libm : Type := {
  log : float -> float;
  cos : float -> float;
  sin : float -> float
}.

(** [1.0 / math.log(nxt + 1.0)].  [math.log] raises [ValueError] off its
    domain, and the division raises [ZeroDivisionError] when the logarithm
    is [0.0]; the one fact taken of the C library is that its logarithm is
    [0.0] at [1.0] and nowhere else, so that test is made on the
    argument. *)
Definition step_length (math : libm) (nxt : Z) : result float :=
  f <- float_of_int nxt ;;
  let v := (f + 1)%float in
  if (v <=? 0)%float then Raise (ValueError "math domain error")
  else if (v =? 1)%float then Raise ZeroDivisionError
  else Return (1 / log math v)%float.

(** [random.sample(population, k)] after [random.seed(...)]: the seeded
    generator's draw is a function [choose] of the population and the
    count, and the call raises when the count does not fit. *)
Definition random_sample (choose : list Z -> nat -> list Z)
    (population : list Z) (k : Z) : result (list Z) :=
  if (k <? 0) || (Z.of_nat (List.length population) <? k)
  then Raise (ValueError "Sample larger than population or is negative")
  else Return (choose population (Z.to_nat k)).

(** What [random.sample] promises of the draw: [k] elements of the
    population, no position drawn twice. *)
Definition draws_without_replacement (choose : list Z -> nat -> list Z) : Prop :=
  forall population k, (k <= List.length population)%nat ->
    List.length (choose population k) = k
    /\ incl (choose population k) population
    /\ (NoDup population -> NoDup (choose population k)).

(** ** The turtle loop

    [collatz_path_3d] of [src/collatz.py] (lines 72-98) and of
    [src/collatz_dash.py] (lines 67-86) are the same loop up to the names
    of the angles, of the rise per step and of the counter, so it is
    written once over those. *)

Record turtle : Type := {
  t_n : Z;
  t_x : float;
  t_y : float;
  t_z : float;
  t_angle : float;
  t_xs : list float;
  t_ys : list float;
  t_zs : list float;
  t_step_count : Z
}.

Definition path : Type := (list float * list float * list float)%type.

Section Loop.

Variable math : libm.
Variable next_n : Z -> string -> result Z.
Variables left right init_h z_step : float.
Variable scheme : string.

(** The turn, from the residue class of the current value. *)
Definition turn (n : Z) : float :=
  if String.eqb scheme "binary" then
    if n mod 2 =? 0 then left else (- right)%float
  else
    let r := n mod 3 in
    if r =? 0 then left
    else if r =? 1 then (- right)%float
    else (0.5 * left)%float.

(** The state before the loop. *)
Definition start_state (n : Z) : turtle :=
  {| t_n := n; t_x := 0; t_y := 0; t_z := 0; t_angle := init_h;
     t_xs := [0%float]; t_ys := [0%float]; t_zs := [0%float];
     t_step_count := 0 |}.

(** One iteration of the loop body. *)
Definition iteration (st : turtle) : result turtle :=
  nxt <- next_n (t_n st) scheme ;;
  let angle := (t_angle st + turn (t_n st))%float in
  step_len <- step_length math nxt ;;
  let x := (t_x st + step_len * cos math angle)%float in
  let y := (t_y st + step_len * sin math angle)%float in
  let step_count := t_step_count st + 1 in
  k <- float_of_int step_count ;;
  let z := (k * z_step)%float in
  Return {| t_n := nxt; t_x := x; t_y := y; t_z := z; t_angle := angle;
            t_xs := t_xs st ++ [x]; t_ys := t_ys st ++ [y];
            t_zs := t_zs st ++ [z]; t_step_count := step_count |}.

(** [while n != 1: ...], at most [fuel] iterations of it. *)
Fixpoint while_loop (fuel : nat) (st : turtle) : outcome turtle turtle :=
  if t_n st =? 1 then Done st
  else match fuel with
       | O => Running st
       | S fuel' =>
           match iteration st with
           | Return st' => while_loop fuel' st'
           | Raise e => Failed e
           end
       end.

(** The values [n] takes at the head of the loop, in order. *)
Fixpoint visited (fuel : nat) (st : turtle) : list Z :=
  t_n st ::
  (if t_n st =? 1 then []
   else match fuel with
        | O => []
        | S fuel' =>
            match iteration st with
            | Return st' => visited fuel' st'
            | Raise _ => []
            end
        end).

(** The whole function: the three coordinate lists once the loop exits. *)
Definition turtle_path (fuel : nat) (n : Z) : outcome path turtle :=
  match while_loop fuel (start_state n) with
  | Done st => Done (t_xs st, t_ys st, t_zs st)
  | Failed e => Failed e
  | Running st => Running st
  end.

End Loop.

(** The stopping time of [n]: how many applications of the rule take it to
    1, when at most [fuel] of them do. *)
Fixpoint stopping_time (next_n : Z -> string -> result Z) (scheme : string)
    (fuel : nat) (n : Z) : option nat :=
  if n =? 1 then Some O
  else match fuel with
       | O => None
       | S fuel' =>
           match next_n n scheme with
           | Return m => option_map S (stopping_time next_n scheme fuel' m)
           | Raise _ => None
           end
       end.

(** [a / b] for two [int]s: the quotient of the integers themselves,
    rounded once to the nearest [float]; [ZeroDivisionError] for a divisor
    0 and [OverflowError] where the quotient rounds to an infinity. *)
Definition exact_int (n : Z) : spec_float :=
  match n with
  | 0 => S754_zero false
  | Z.pos p => S754_finite false p 0
  | Z.neg p => S754_finite true p 0
  end.

Definition int_truediv (a b : Z) : result float :=
  if b =? 0 then Raise ZeroDivisionError
  else match SFdiv prec emax (exact_int a) (exact_int b) with
       | S754_infinity _ => Raise OverflowError
       | q => Return (SF2Prim q)
       end.

(** [a / b] for two [float]s. *)
Definition float_truediv (a b : float) : result float :=
  if (b =? 0)%float then Raise ZeroDivisionError else Return (a / b)%float.

(** The values the rule goes through from [n], as far as 1 or as [fuel]
    applications reach. *)
Fixpoint orbit (next_n : Z -> string -> result Z) (scheme : string)
    (fuel : nat) (n : Z) : list Z :=
  n ::
  (if n =? 1 then []
   else match fuel with
        | O => []
        | S fuel' =>
            match next_n n scheme with
            | Return m => orbit next_n scheme fuel' m
            | Raise _ => []
            end
        end).

(** ** The scripts, each with its own copy of the recurrence *)

Module Collatz.

(** [next_n] of [src/collatz.py]. *)
Definition next_n (n : Z) (scheme : string) : result Z :=
  if String.eqb scheme "binary" then
    Return (if n mod 2 =? 0 then n / 2 else 3 * n + 1)
  else if String.eqb scheme "ternary" then
    let r := n mod 3 in
    if r =? 0 then Return (n / 3)
    else if r =? 1 then Return ((4 * n + 1) / 3)
    else Return ((2 * n + 2) / 3)
  else Raise (ValueError bad_scheme).

(** 13.17 and 0.15 are read as the nearest binary64 values. *)
Definition LEFT_DEG : float := 0x1.a570a3d70a3d7p+3%float.
Definition RIGHT_DEG : float := 16%float.
Definition INITIAL_HEADING_DEG : float := (-75)%float.
Definition Z_STEP : float := 0x1.3333333333333p-3%float.
Definition SEED : Z := 42.

Definition _left : float := radians LEFT_DEG.
Definition _right : float := radians RIGHT_DEG.
Definition _init_h : float := radians INITIAL_HEADING_DEG.

(** [collatz_path_3d], lines 71-98. *)
Definition collatz_path_3d (math : libm) (fuel : nat)
    (n : Z) (scheme : string) : outcome path turtle :=
  turtle_path math next_n _left _right _init_h Z_STEP scheme fuel n.

(** The values the loop of [collatz_path_3d] goes through. *)
Definition collatz_values (math : libm) (fuel : nat)
    (n : Z) (scheme : string) : list Z :=
  visited math next_n _left _right Z_STEP scheme fuel
    (start_state _init_h n).

(** [plot_shrub], lines 105-109: the reference value, and the starting
    values the function goes on to plot. *)
Definition hero (scheme : string) : Z :=
  if String.eqb scheme "binary" then 837799 else 91.

Definition plot_shrub_starts (choose : list Z -> nat -> list Z)
    (n_samples max_start : Z) (scheme : string) : result (list Z) :=
  starts <- random_sample choose (range 2 max_start) n_samples ;;
  if negb (mem (hero scheme) starts)
  then Return (starts ++ [hero scheme])%list
  else Return starts.

(** [2.0 / (n_samples / 100)], the width of every line (line 124). *)
Definition linewidth (n_samples : Z) : result float :=
  q <- int_truediv n_samples 100 ;;
  float_truediv 2 q.

(** The loop of lines 122-124: the trajectory of each starting value, then
    the arguments of [ax.plot], of which the line width is computed
    anew each time.  Every trajectory has [fuel] iterations to end. *)
Fixpoint plot_lines (math : libm) (fuel : nat) (scheme : string)
    (n_samples : Z) (starts : list Z) : outcome (list (path * float)) turtle :=
  match starts with
  | [] => Done []
  | n :: rest =>
      match collatz_path_3d math fuel n scheme with
      | Done p =>
          match linewidth n_samples with
          | Return w =>
              match plot_lines math fuel scheme n_samples rest with
              | Done lines => Done ((p, w) :: lines)
              | Failed e => Failed e
              | Running st => Running st
              end
          | Raise e => Failed e
          end
      | Failed e => Failed e
      | Running st => Running st
      end
  end.

(** [plot_shrub], lines 104-136, as the lines it draws.  Between the
    starting values and the loop, lines 111-120 have matplotlib and numpy
    build the figure and the colours from the starting values and
    [max_start]; the source fixes nothing of them, so they are a function
    [colours], which may raise. *)
Definition plot_shrub (choose : list Z -> nat -> list Z)
    (colours : list Z -> Z -> result unit) (math : libm) (fuel : nat)
    (n_samples max_start : Z) (scheme : string)
    : outcome (list (path * float)) turtle :=
  match
    starts <- plot_shrub_starts choose n_samples max_start scheme ;;
    _ <- colours starts max_start ;;
    Return starts
  with
  | Return starts => plot_lines math fuel scheme n_samples starts
  | Raise e => Failed e
  end.

End Collatz.

Module Dash.

(** [next_n] of [src/collatz_dash.py]: the last branch adds 1, not 2. *)
Definition next_n (n : Z) (scheme : string) : result Z :=
  if String.eqb scheme "binary" then
    Return (if n mod 2 =? 0 then n / 2 else 3 * n + 1)
  else if String.eqb scheme "ternary" then
    let r := n mod 3 in
    if r =? 0 then Return (n / 3)
    else if r =? 1 then Return ((4 * n + 1) / 3)
    else Return ((2 * n + 1) / 3)
  else Raise (ValueError bad_scheme).

(** [collatz_path_3d], lines 58-86: the angles and the rise per step are
    arguments, the initial heading is the literal -75 degrees. *)
Definition collatz_path_3d (math : libm) (fuel : nat)
    (start : Z) (left_deg right_deg z_step : float) (scheme : string)
    : outcome path turtle :=
  turtle_path math next_n (radians left_deg) (radians right_deg)
    (radians (-75)) z_step scheme fuel start.

(** [update_shrub], lines 164-170: the guarded inputs and the draw.  An
    input field is [None] until it is filled in, and [v or d] takes [d]
    for [None] and for 0. *)
Definition or_default (v : option Z) (d : Z) : Z :=
  match v with
  | Some x => if x =? 0 then d else x
  | None => d
  end.

Definition update_shrub_starts (choose : list Z -> nat -> list Z)
    (n_starts max_start : option Z) : result (list Z) :=
  let n_starts := Z.max 1 (or_default n_starts 1000) in
  let max_start := Z.max 10 (or_default max_start 1000000) in
  let population := range 2 max_start in
  random_sample choose population
    (Z.min n_starts (Z.of_nat (List.length population))).

(** What a call of [update_shrub] comes to: the figure it returns, an
    exception of the arithmetic, a [NameError] on a name that nothing
    binds, or a trajectory still being computed. *)
Inductive callback (A : Type) : Type :=
| Returned (a : A)
| Crashed (e : exn)
| Unbound (name : string)
| Busy (st : turtle).

Arguments Returned {A} a.
Arguments Crashed {A} e.
Arguments Unbound {A} name.
Arguments Busy {A} st.

(** [v or d] for a number field read as a [float]: [None], [0.0] and
    [-0.0] are false, a NaN is true. *)
Definition float_or (v : option float) (d : float) : float :=
  match v with
  | Some x => if (x =? 0)%float then d else x
  | None => d
  end.

(** The names bound where the body of [update_shrub] runs: its parameters
    and every name it assigns, the names the module binds, and the
    builtins the body calls. *)
Definition update_shrub_locals : list string :=
  ["_"; "left_deg"; "right_deg"; "z_step"; "n_starts"; "max_start"; "scheme";
   "population"; "starts"; "fig"; "s"; "xs"; "ys"; "zs"; "stride"; "labels";
   "hero"; "md"].

Definition module_globals : list string :=
  ["annotations"; "math"; "random"; "List"; "Tuple"; "np"; "go"; "Dash";
   "dcc"; "html"; "Input"; "Output"; "State"; "callback_context"; "next_n";
   "collatz_path_3d"; "colour_for"; "app"; "server"; "update_shrub"; "os";
   "port"].

Definition builtins_called : list string :=
  ["max"; "int"; "min"; "len"; "range"; "enumerate"; "dict"].

Definition bound (name : string) : bool :=
  existsb (String.eqb name)
    (update_shrub_locals ++ module_globals ++ builtins_called).

(** The traces of the figure: one per starting value, and the reference
    trajectory. *)
Inductive trace : Type :=
| Line (start : Z) (p : path)
| Hero (hero : Z) (p : path).

(** The loop of lines 173-190.  Once the trajectory of [s] is there, line
    178 reads [vals] and line 186 reads [colour]. *)
Fixpoint add_traces (math : libm) (fuel : nat)
    (left_deg right_deg z_step : float) (scheme : string)
    (starts : list Z) (fig : list trace) : callback (list trace) :=
  match starts with
  | [] => Returned fig
  | s :: rest =>
      match collatz_path_3d math fuel s left_deg right_deg z_step scheme with
      | Failed e => Crashed e
      | Running st => Busy st
      | Done p =>
          if negb (bound "vals") then Unbound "vals"
          else if negb (bound "colour") then Unbound "colour"
          else add_traces math fuel left_deg right_deg z_step scheme rest
                 (fig ++ [Line s p])%list
      end
  end.

(** [update_shrub], lines 159-224; of the pair it returns, the figure. *)
Definition update_shrub (choose : list Z -> nat -> list Z) (math : libm)
    (fuel : nat) (left_deg right_deg z_step : option float)
    (n_starts max_start : option Z) (scheme : string)
    : callback (list trace) :=
  let left_deg := float_or left_deg 0x1.14ccccccccccdp+3 in
  let right_deg := float_or right_deg 16 in
  let z_step := float_or z_step 0x1.999999999999ap-3 in
  match update_shrub_starts choose n_starts max_start with
  | Raise e => Crashed e
  | Return starts =>
      match add_traces math fuel left_deg right_deg z_step scheme starts []
      with
      | Returned fig =>
          let hero := if String.eqb scheme "binary" then 837799 else 91 in
          if hero <? Z.max 10 (or_default max_start 1000000) then
            match
              collatz_path_3d math fuel hero left_deg right_deg z_step scheme
            with
            | Done p => Returned (fig ++ [Hero hero p])%list
            | Failed e => Crashed e
            | Running st => Busy st
            end
          else Returned fig
      | other => other
      end
  end.

End Dash.

Module Old2.

(** [next_n] of [src/old2.py]. *)
Definition next_n (n : Z) (mode : string) : result Z :=
  if String.eqb mode "binary" then
    Return (if n mod 2 =? 0 then n / 2 else 3 * n + 1)
  else if String.eqb mode "ternary" then
    let r := n mod 3 in
    if r =? 0 then Return (n / 3)
    else if r =? 1 then Return ((4 * n + 1) / 3)
    else Return ((2 * n + 2) / 3)
  else Raise (ValueError bad_mode).

(** 8.65 and 0.6 are read as the nearest binary64 values. *)
Definition LEFT_DEG : float := 0x1.14ccccccccccdp+3%float.
Definition RIGHT_DEG : float := 16%float.
Definition INITIAL_HEADING_DEG : float := (-75)%float.
Definition VERTICAL_SCALE : float := 0x1.3333333333333p-1%float.
Definition SEED : Z := 42.

Definition left_rad : float := radians LEFT_DEG.
Definition right_rad : float := radians RIGHT_DEG.
Definition init_heading : float := radians INITIAL_HEADING_DEG.

(** The variables of [collatz_path_3d], lines 98-138: here the height
    grows with the length of each step, and nothing counts the steps. *)
Record walk : Type := {
  w_n : Z;
  w_x : float;
  w_y : float;
  w_z : float;
  w_angle_xy : float;
  w_xs : list float;
  w_ys : list float;
  w_zs : list float
}.

(** The heading after the turn, from the residue class of the current
    value (lines 111-123). *)
Definition turned (mode : string) (n : Z) (angle_xy : float) : float :=
  if String.eqb mode "binary" then
    if n mod 2 =? 0 then (angle_xy + left_rad)%float
    else (angle_xy - right_rad)%float
  else
    let r := n mod 3 in
    if r =? 0 then (angle_xy + left_rad)%float
    else if r =? 1 then (angle_xy - right_rad)%float
    else (angle_xy + 0.5 * left_rad)%float.

Definition start_walk (n : Z) : walk :=
  {| w_n := n; w_x := 0; w_y := 0; w_z := 0; w_angle_xy := init_heading;
     w_xs := [0%float]; w_ys := [0%float]; w_zs := [0%float] |}.

(** One iteration of the loop body. *)
Definition iteration (math : libm) (mode : string) (st : walk) : result walk :=
  nxt <- next_n (w_n st) mode ;;
  let angle_xy := turned mode (w_n st) (w_angle_xy st) in
  step <- step_length math nxt ;;
  let x := (w_x st + step * cos math angle_xy)%float in
  let y := (w_y st + step * sin math angle_xy)%float in
  let z := (w_z st + step * VERTICAL_SCALE)%float in
  Return {| w_n := nxt; w_x := x; w_y := y; w_z := z; w_angle_xy := angle_xy;
            w_xs := (w_xs st ++ [x])%list; w_ys := (w_ys st ++ [y])%list;
            w_zs := (w_zs st ++ [z])%list |}.

(** [while n != 1: ...], at most [fuel] iterations of it. *)
Fixpoint while_loop (math : libm) (mode : string) (fuel : nat) (st : walk)
    : outcome walk walk :=
  if w_n st =? 1 then Done st
  else match fuel with
       | O => Running st
       | S fuel' =>
           match iteration math mode st with
           | Return st' => while_loop math mode fuel' st'
           | Raise e => Failed e
           end
       end.

Definition collatz_path_3d (math : libm) (fuel : nat) (n : Z) (mode : string)
    : outcome path walk :=
  match while_loop math mode fuel (start_walk n) with
  | Done st => Done (w_xs st, w_ys st, w_zs st)
  | Failed e => Failed e
  | Running st => Running st
  end.

(** [plot_shrub], lines 145-173, as the paths it draws: those of the
    sample, then the one of [celeb].  Before the loop, lines 149-155 have
    matplotlib and numpy build the figure and the colours from the
    starting values; the source fixes nothing of them, so they are a
    function [colours], which may raise. *)
Definition celeb (mode : string) : Z :=
  if String.eqb mode "binary" then 27 else 31.

Fixpoint plot_lines (math : libm) (fuel : nat) (mode : string)
    (starts : list Z) : outcome (list path) walk :=
  match starts with
  | [] => Done []
  | n :: rest =>
      match collatz_path_3d math fuel n mode with
      | Done p =>
          match plot_lines math fuel mode rest with
          | Done lines => Done (p :: lines)
          | Failed e => Failed e
          | Running st => Running st
          end
      | Failed e => Failed e
      | Running st => Running st
      end
  end.

Definition plot_shrub (choose : list Z -> nat -> list Z)
    (colours : list Z -> result unit) (math : libm) (fuel : nat)
    (n_samples max_start : Z) (mode : string) : outcome (list path) walk :=
  match
    starts <- random_sample choose (range 2 max_start) n_samples ;;
    _ <- colours starts ;;
    Return starts
  with
  | Return starts =>
      match plot_lines math fuel mode starts with
      | Done lines =>
          match collatz_path_3d math fuel (celeb mode) mode with
          | Done p => Done (lines ++ [p])%list
          | Failed e => Failed e
          | Running st => Running st
          end
      | Failed e => Failed e
      | Running st => Running st
      end
  | Raise e => Failed e
  end.

End Old2.

Module Old1.

(** The variables of [collatz_path], lines 3-32 of [src/old1.py]: a path
    in the plane, the binary rule written in the loop itself. *)
Record pen : Type := {
  p_n : Z;
  p_x : float;
  p_y : float;
  p_angle : float;
  p_xs : list float;
  p_ys : list float
}.

Definition start_pen (n : Z) : pen :=
  {| p_n := n; p_x := 0; p_y := 0; p_angle := 0;
     p_xs := [0%float]; p_ys := [0%float] |}.

(** One iteration of the loop body: the turn and the new value, then the
    step, whose length is taken from the new value. *)
Definition iteration (math : libm) (left_deg right_deg : float) (st : pen)
    : result pen :=
  let angle :=
    if p_n st mod 2 =? 0 then (p_angle st + radians left_deg)%float
    else (p_angle st - radians right_deg)%float in
  let n := if p_n st mod 2 =? 0 then p_n st / 2 else 3 * p_n st + 1 in
  step <- step_length math n ;;
  let x := (p_x st + step * cos math angle)%float in
  let y := (p_y st + step * sin math angle)%float in
  Return {| p_n := n; p_x := x; p_y := y; p_angle := angle;
            p_xs := (p_xs st ++ [x])%list; p_ys := (p_ys st ++ [y])%list |}.

(** [while n != 1: ...], at most [fuel] iterations of it. *)
Fixpoint while_loop (math : libm) (left_deg right_deg : float) (fuel : nat)
    (st : pen) : outcome pen pen :=
  if p_n st =? 1 then Done st
  else match fuel with
       | O => Running st
       | S fuel' =>
           match iteration math left_deg right_deg st with
           | Return st' => while_loop math left_deg right_deg fuel' st'
           | Raise e => Failed e
           end
       end.

Definition collatz_path (math : libm) (fuel : nat) (n : Z)
    (left_deg right_deg : float) : outcome (list float * list float) pen :=
  match while_loop math left_deg right_deg fuel (start_pen n) with
  | Done st => Done (p_xs st, p_ys st)
  | Failed e => Failed e
  | Running st => Running st
  end.

(** The script, lines 35-51: the paths it plots, those of the sample and
    then the one of [special], each with the default angles 5.65 and 8.0
    (5.65 read as the nearest binary64 value). *)
Definition N_STARTS : Z := 5000.
Definition MAX_START : Z := 1000000.
Definition special : Z := 837799.

Definition default_path (math : libm) (fuel : nat) (n : Z)
    : outcome (list float * list float) pen :=
  collatz_path math fuel n 0x1.699999999999ap+2 8.

Fixpoint plot_paths (math : libm) (fuel : nat) (starts : list Z)
    : outcome (list (list float * list float)) pen :=
  match starts with
  | [] => Done []
  | n :: rest =>
      match default_path math fuel n with
      | Done p =>
          match plot_paths math fuel rest with
          | Done ps => Done (p :: ps)
          | Failed e => Failed e
          | Running st => Running st
          end
      | Failed e => Failed e
      | Running st => Running st
      end
  end.

(** The plots of lines 39-51, for a count and a bound. *)
Definition plots (choose : list Z -> nat -> list Z) (math : libm)
    (fuel : nat) (n_starts max_start : Z)
    : outcome (list (list float * list float)) pen :=
  match random_sample choose (range 2 max_start) n_starts with
  | Raise e => Failed e
  | Return starts =>
      match plot_paths math fuel starts with
      | Done ps =>
          match default_path math fuel special with
          | Done p => Done (ps ++ [p])%list
          | Failed e => Failed e
          | Running st => Running st
          end
      | Failed e => Failed e
      | Running st => Running st
      end
  end.

Definition script (choose : list Z -> nat -> list Z) (math : libm)
    (fuel : nat) : outcome (list (list float * list float)) pen :=
  plots choose math fuel N_STARTS MAX_START.

End Old1.

(** * Binary64 rounding, as arithmetic on integers

    The definitions the proofs about [float(k) * z_step] rest on: what
    [SpecFloat]'s shift-and-round computes, written with [/], [mod] and
    comparisons. *)

(** A mantissa with no bit shifted out yet. *)
Definition exact_record (m : Z) : shr_record :=
  {| shr_m := m; shr_r := false; shr_s := false |}.

(** [m / 2^n] rounded to the nearest integer, ties to even. *)
Definition rne (m n : Z) : Z :=
  let q := m / 2 ^ n in
  match 2 * (m mod 2 ^ n) ?= 2 ^ n with
  | Lt => q
  | Eq => if Z.even q then q else q + 1
  | Gt => q + 1
  end.

(** [m * 2^e] rounded to [prec] bits: the mantissa and the exponent, the
    mantissa brought back to [prec] bits when rounding carried. *)
Definition round_pair (m e : Z) : Z * Z :=
  let n := Zdigits2 m - prec in
  let q := rne m n in
  if q <? 2 ^ prec then (q, e + n) else (2 ^ (prec - 1), e + n + 1).

(** The positive float of a mantissa and an exponent, an infinity past the
    largest exponent. *)
Definition pack (me : Z * Z) : spec_float :=
  if snd me <=? emax - prec
  then S754_finite false (Z.to_pos (fst me)) (snd me)
  else S754_infinity false.

(** [m1 * 2^e1 <= m2 * 2^e2], without leaving the integers. *)
Definition dyadic_le (m1 e1 m2 e2 : Z) : Prop :=
  m1 * 2 ^ (e1 - Z.min e1 e2) <= m2 * 2 ^ (e2 - Z.min e1 e2).

(** The order of normal floats: by exponent, then by mantissa. *)
Definition pair_le (a b : Z * Z) : Prop :=
  snd a < snd b \/ (snd a = snd b /\ fst a <= fst b).

(** A mantissa of exactly [prec] bits. *)
Definition normal (a : Z * Z) : Prop := 2 ^ (prec - 1) <= fst a < 2 ^ prec.

(** A positive integer with its mantissa shifted left to [prec] bits. *)
Definition aligned (k : Z) : Z * Z :=
  let d := Zdigits2 k in
  if d <? prec then (k * 2 ^ (prec - d), d - prec) else (k, 0).

(** [float(k)] for [k > 0], as a mantissa and an exponent. *)
Definition conv (k : Z) : Z * Z :=
  round_pair (fst (aligned k)) (snd (aligned k)).

(** The product of a normal float with the float [mc * 2^ec]. *)
Definition times (mc : positive) (ec : Z) (a : Z * Z) : Z * Z :=
  round_pair (fst a * Z.pos mc) (snd a + ec).

(** [float(k)] where it does not overflow, and the height after [k]
    iterations, [k * z_step]. *)
Definition fz (k : Z) : float := SF2Prim (binary_normalize prec emax k 0 false).
Definition rise (z_step : float) (k : Z) : float := (fz k * z_step)%float.

(** The [zs] column after [k] iterations. *)
Definition heights (z_step : float) (k : nat) : list float :=
  0%float :: map (fun i => rise z_step (Z.of_nat i)) (seq 1 k).

(** What the loop keeps true of its state: the counter is the number of
    iterations so far and fits a float, the [zs] column holds the heights
    so far, and every column starts at 0 and has one entry per iteration
    after that. *)
Definition loop_invariant (z_step : float) (st : turtle) : Prop :=
  0 <= t_step_count st
  /\ float_of_int (t_step_count st) = Return (fz (t_step_count st))
  /\ t_zs st = heights z_step (Z.to_nat (t_step_count st))
  /\ List.length (t_xs st) = S (Z.to_nat (t_step_count st))
  /\ List.length (t_ys st) = S (Z.to_nat (t_step_count st))
  /\ hd_error (t_xs st) = Some 0%float
  /\ hd_error (t_ys st) = Some 0%float.

(** One draw that meets [draws_without_replacement]: the first [k] of the
    population. *)
Definition first_k (population : list Z) (k : nat) : list Z :=
  firstn k population.

(** What the ternary rule divides by 3, by residue class; [last] is what
    its last branch adds to [2n]: 2 in [src/collatz.py] and [src/old2.py],
    1 in [src/collatz_dash.py]. *)
Definition ternary_numerator (last n : Z) : Z :=
  if n mod 3 =? 0 then n
  else if n mod 3 =? 1 then 4 * n + 1
  else 2 * n + last.

(** The floor of [a / 3]: the quotient [q] with [3q <= a < 3q + 3]. *)
Definition floor_third (a q : Z) : Prop := 3 * q <= a < 3 * q + 3.

(** * The binary rule on machine integers

    What the proofs about the default range of starting values compute
    with: the binary rule on 63-bit integers, followed from [n] until it
    falls below [n0]. *)
Module Machine.
Import Uint63.
Local Open Scope uint63_scope.

Fixpoint drops (fuel : nat) (n0 n : int) : bool :=
  if n <? n0 then true
  else match fuel with
       | O => false
       | S fuel' =>
           if n mod 2 =? 0 then drops fuel' n0 (n / 2)
           else if n <? 1000000000000000 then drops fuel' n0 (3 * n + 1)
           else false
       end.

(** [drops fuel n n] for [count] values from [n] on. *)
Fixpoint all_drop (fuel count : nat) (n : int) : bool :=
  match count with
  | O => true
  | S count' => drops fuel n n && all_drop fuel count' (n + 1)
  end.

End Machine.


(** The sequence from [n] reaches 1 in [k] steps, below 2^1023. *)
Definition stops_in (n : Z) (k : nat) : Prop :=
  stopping_time Collatz.next_n "binary" k n = Some k
  /\ Forall (fun v => v < 2 ^ 1023) (orbit Collatz.next_n "binary" k n).

(** * Properties *)

(** ** Rounding to nearest even *)

Lemma iter_pos_nat {A : Type} (f : A -> A) (p : positive) (x : A) :
  iter_pos f p x = Nat.iter (Pos.to_nat p) f x.
Proof.
  revert x. induction p as [p IH | p IH |]; intros x; cbn [iter_pos].
  - rewrite !IH, Pos2Nat.inj_xI, <- Nat.iter_succ_r, <- Nat.iter_add.
    f_equal. lia.
  - rewrite !IH, Pos2Nat.inj_xO, <- Nat.iter_add. f_equal. lia.
  - reflexivity.
Qed.

Lemma shr_1_nonneg (q : Z) (r s : bool) :
  0 <= q ->
  shr_1 {| shr_m := q; shr_r := r; shr_s := s |}
  = {| shr_m := q / 2; shr_r := Z.odd q; shr_s := r || s |}.
Proof.
  intros Hq. rewrite <- Z.div2_div.
  destruct q as [| p | p]; [reflexivity | | lia].
  destruct p; reflexivity.
Qed.

Lemma shifted_spec (m : Z) (n : nat) :
  0 <= m ->
  let rem := m mod 2 ^ Z.of_nat n in
  Nat.iter n shr_1 (exact_record m)
  = {| shr_m := m / 2 ^ Z.of_nat n;
       shr_r := 2 ^ Z.of_nat n <=? 2 * rem;
       shr_s := negb ((rem =? 0) || (2 * rem =? 2 ^ Z.of_nat n)) |}.
Proof.
  intros Hm. induction n as [| n IH]; cbv zeta in *.
  - change (Nat.iter 0 shr_1 (exact_record m)) with (exact_record m). cbn [Z.of_nat]. rewrite Z.pow_0_r, Z.div_1_r, Z.mod_1_r. reflexivity.
  - change (Nat.iter (S n) shr_1 (exact_record m)) with (shr_1 (Nat.iter n shr_1 (exact_record m))).
    rewrite IH. clear IH.
    set (P := 2 ^ Z.of_nat n).
    assert (HP : 0 < P) by (apply Z.pow_pos_nonneg; lia).
    assert (HS : 2 ^ Z.of_nat (S n) = P * 2).
    { rewrite Nat2Z.inj_succ, Z.pow_succ_r by lia. unfold P. lia. }
    rewrite shr_1_nonneg by (apply Z.div_pos; lia).
    rewrite HS, <- Z.div_div by lia.
    rewrite Z.rem_mul_r by lia.
    pose proof (Z.mod_pos_bound m P HP) as Hrem.
    rewrite (Zmod_odd (m / P)).
    set (rem := m mod P) in *.
    destruct (Z.odd (m / P)); f_equal.
    + symmetry. apply Z.leb_le. lia.
    + destruct (Z.leb_spec P (2 * rem)), (Z.eqb_spec rem 0), (Z.eqb_spec (2 * rem) P),
        (Z.eqb_spec (rem + P * 1) 0), (Z.eqb_spec (2 * (rem + P * 1)) (P * 2)); cbn; lia.
    + symmetry. apply Z.leb_gt. lia.
    + destruct (Z.leb_spec P (2 * rem)), (Z.eqb_spec rem 0), (Z.eqb_spec (2 * rem) P),
        (Z.eqb_spec (rem + P * 0) 0), (Z.eqb_spec (2 * (rem + P * 0)) (P * 2)); cbn; lia.
Qed.

Lemma round_shifted (m : Z) (n : nat) :
  0 <= m ->
  let rec := Nat.iter n shr_1 (exact_record m) in
  round_nearest_even (shr_m rec) (loc_of_shr_record rec) = rne m (Z.of_nat n).
Proof.
  intros Hm. cbv zeta. rewrite shifted_spec by assumption. cbv zeta.
  unfold rne, loc_of_shr_record, round_nearest_even. cbn [shr_m shr_r shr_s].
  set (P := 2 ^ Z.of_nat n).
  assert (HP : 0 < P) by (apply Z.pow_pos_nonneg; lia).
  pose proof (Z.mod_pos_bound m P HP) as Hrem.
  set (rem := m mod P) in *.
  destruct (Z.compare_spec (2 * rem) P), (Z.leb_spec P (2 * rem)),
    (Z.eqb_spec rem 0), (Z.eqb_spec (2 * rem) P); cbn; try lia; reflexivity.
Qed.

Lemma rne_mono (m1 m2 n : Z) :
  0 <= n -> 0 <= m1 <= m2 -> rne m1 n <= rne m2 n.
Proof.
  intros Hn Hm. unfold rne.
  set (P := 2 ^ n).
  assert (HP : 0 < P) by (apply Z.pow_pos_nonneg; lia).
  pose proof (Z.mod_pos_bound m1 P HP) as Hr1.
  pose proof (Z.mod_pos_bound m2 P HP) as Hr2.
  pose proof (Z.div_mod m1 P ltac:(lia)) as E1.
  pose proof (Z.div_mod m2 P ltac:(lia)) as E2.
  assert (Hq : m1 / P <= m2 / P) by (apply Z.div_le_mono; lia).
  destruct (Z.eq_dec (m1 / P) (m2 / P)) as [Heq | Hne].
  - rewrite Heq in *.
    destruct (Z.compare_spec (2 * (m1 mod P)) P), (Z.compare_spec (2 * (m2 mod P)) P),
      (Z.even (m2 / P)); lia.
  - destruct (Z.compare_spec (2 * (m1 mod P)) P), (Z.compare_spec (2 * (m2 mod P)) P),
      (Z.even (m1 / P)), (Z.even (m2 / P)); lia.
Qed.

Lemma rne_scale (m n t : Z) :
  0 <= n -> 0 <= t -> rne (m * 2 ^ t) (n + t) = rne m n.
Proof.
  intros Hn Ht. unfold rne.
  assert (HP : 0 < 2 ^ n) by (apply Z.pow_pos_nonneg; lia).
  assert (HT : 0 < 2 ^ t) by (apply Z.pow_pos_nonneg; lia).
  rewrite Z.pow_add_r by lia.
  rewrite Z.div_mul_cancel_r by lia.
  rewrite Z.mul_mod_distr_r by lia.
  rewrite Z.mul_assoc, <- Zmult_compare_compat_r by lia. reflexivity.
Qed.

Lemma rne_bounds (m n lo : Z) :
  0 <= n -> 0 <= lo -> lo * 2 ^ n <= m < (2 * lo) * 2 ^ n -> lo <= rne m n <= 2 * lo.
Proof.
  intros Hn Hlo [Hl Hu]. unfold rne.
  assert (HP : 0 < 2 ^ n) by (apply Z.pow_pos_nonneg; lia).
  assert (lo <= m / 2 ^ n) by (apply Z.div_le_lower_bound; lia).
  assert (m / 2 ^ n < 2 * lo) by (apply Z.div_lt_upper_bound; lia).
  destruct (2 * (m mod 2 ^ n) ?= 2 ^ n), (Z.even (m / 2 ^ n)); lia.
Qed.

Lemma digits2_bounds (p : positive) :
  2 ^ (Z.pos (digits2_pos p) - 1) <= Z.pos p < 2 ^ Z.pos (digits2_pos p).
Proof.
  induction p as [p IH | p IH |]; cbn [digits2_pos].
  - rewrite Pos2Z.inj_succ. change (Z.pos p~1) with (2 * Z.pos p + 1).
    replace (Z.succ (Z.pos (digits2_pos p)) - 1) with (Z.succ (Z.pos (digits2_pos p) - 1)) by lia.
    rewrite !Z.pow_succ_r by lia.
    destruct IH as [IHl IHu]. revert IHl IHu.
    generalize (2 ^ (Z.pos (digits2_pos p) - 1)) (2 ^ Z.pos (digits2_pos p)).
    intros a b; lia.
  - rewrite Pos2Z.inj_succ. change (Z.pos p~0) with (2 * Z.pos p).
    replace (Z.succ (Z.pos (digits2_pos p)) - 1) with (Z.succ (Z.pos (digits2_pos p) - 1)) by lia.
    rewrite !Z.pow_succ_r by lia.
    destruct IH as [IHl IHu]. revert IHl IHu.
    generalize (2 ^ (Z.pos (digits2_pos p) - 1)) (2 ^ Z.pos (digits2_pos p)).
    intros a b; lia.
  - cbn. lia.
Qed.

Lemma Zdigits2_bounds (m : Z) :
  0 < m -> 0 < Zdigits2 m /\ 2 ^ (Zdigits2 m - 1) <= m < 2 ^ Zdigits2 m.
Proof.
  destruct m as [| p | p]; try lia. intros _. cbn [Zdigits2].
  split; [lia | apply digits2_bounds].
Qed.

Lemma Zdigits2_unique (m k : Z) :
  2 ^ (k - 1) <= m < 2 ^ k -> 0 < k -> Zdigits2 m = k.
Proof.
  intros [Hl Hu] Hk.
  assert (Hm : 0 < m) by (pose proof (Z.pow_pos_nonneg 2 (k - 1)); lia).
  destruct (Zdigits2_bounds m Hm) as (Hd & Hdl & Hdu).
  destruct (Z.lt_trichotomy (Zdigits2 m) k) as [Hlt | [Heq | Hgt]]; [| exact Heq |].
  - pose proof (Z.pow_le_mono_r 2 (Zdigits2 m) (k - 1)). lia.
  - pose proof (Z.pow_le_mono_r 2 k (Zdigits2 m - 1)). lia.
Qed.

Lemma rne_0 (m : Z) : rne m 0 = m.
Proof. unfold rne. rewrite Z.pow_0_r, Z.div_1_r, Z.mod_1_r. reflexivity. Qed.

Lemma shr_exact (m e n : Z) :
  0 <= m -> 0 <= n ->
  let rec := fst (shr (exact_record m) e n) in
  round_nearest_even (shr_m rec) (loc_of_shr_record rec) = rne m n
  /\ snd (shr (exact_record m) e n) = e + n.
Proof.
  intros Hm Hn. cbv zeta. destruct n as [| p | p]; [| | lia]; cbn [shr fst snd].
  - rewrite rne_0. split; [reflexivity | lia].
  - rewrite iter_pos_nat, round_shifted, positive_nat_Z by assumption.
    split; reflexivity.
Qed.

Lemma rne_normal (m : Z) :
  0 < m -> prec <= Zdigits2 m ->
  2 ^ (prec - 1) <= rne m (Zdigits2 m - prec) <= 2 ^ prec.
Proof.
  intros Hm Hd. destruct (Zdigits2_bounds m Hm) as (_ & Hl & Hu).
  change (2 ^ prec) with (2 * 2 ^ (prec - 1)).
  assert (Hp : prec = 53) by reflexivity.
  apply rne_bounds; [lia | apply Z.pow_nonneg; lia |].
  assert (E1 : 2 ^ (prec - 1) * 2 ^ (Zdigits2 m - prec) = 2 ^ (Zdigits2 m - 1)).
  { rewrite <- Z.pow_add_r by lia. f_equal. lia. }
  assert (E2 : 2 * 2 ^ (prec - 1) * 2 ^ (Zdigits2 m - prec) = 2 ^ Zdigits2 m).
  { change (2 * 2 ^ (prec - 1)) with (2 ^ prec).
    rewrite <- Z.pow_add_r by lia. f_equal. lia. }
  rewrite E1, E2. split; assumption.
Qed.

Lemma round_aux_spec (m e : Z) :
  0 < m -> prec <= Zdigits2 m -> emin <= Zdigits2 m + e - prec ->
  binary_round_aux prec emax false m e loc_Exact = pack (round_pair m e).
Proof.
  intros Hm Hd He.
  unfold binary_round_aux, shr_fexp, round_pair.
  set (n := Zdigits2 m - prec).
  replace (fexp prec emax (Zdigits2 m + e) - e) with n
    by (unfold fexp, n; lia).
  change (shr_record_of_loc m loc_Exact) with (exact_record m).
  destruct (shr_exact m e n ltac:(lia) ltac:(lia)) as [Hq He'].
  destruct (shr (exact_record m) e n) as [rec e'] eqn:Hshr. cbn [fst snd] in Hq, He'.
  rewrite Hq. subst e'. clear Hq Hshr rec.
  pose proof (rne_normal m Hm Hd) as Hb. fold n in Hb.
  set (q := rne m n) in *.
  change (shr_record_of_loc q loc_Exact) with (exact_record q).
  destruct (Z.ltb_spec q (2 ^ prec)) as [Hlt | Hge].
  - rewrite (Zdigits2_unique q prec) by (unfold prec in *; lia).
    replace (fexp prec emax (prec + (e + n)) - (e + n)) with 0
      by (unfold fexp, n in *; lia).
    cbn [shr exact_record shr_m]. unfold pack. cbn [fst snd].
    destruct q as [| p | p]; try (unfold prec in *; cbn in Hb; lia).
    reflexivity.
  - assert (q = 2 ^ prec) by lia. clearbody q. subst q.
    replace (fexp prec emax (Zdigits2 (2 ^ prec) + (e + n)) - (e + n)) with 1
      by (change (Zdigits2 (2 ^ prec)) with (prec + 1); unfold fexp, n in *; lia).
    cbn [shr]. unfold pack. cbn [fst snd].
    reflexivity.
Qed.

Lemma round_pair_normal (m e : Z) :
  0 < m -> prec <= Zdigits2 m -> normal (round_pair m e).
Proof.
  intros Hm Hd. pose proof (rne_normal m Hm Hd) as Hb.
  unfold normal, round_pair. cbv zeta.
  destruct (Z.ltb_spec (rne m (Zdigits2 m - prec)) (2 ^ prec)); cbn [fst].
  - lia.
  - split; [lia | reflexivity].
Qed.

Lemma pow2_lt_inv (a b : Z) : 0 <= a -> 0 <= b -> 2 ^ a < 2 ^ b -> a < b.
Proof. intros Ha Hb H. apply (Z.pow_lt_mono_r_iff 2); [lia | lia | exact H]. Qed.

Lemma round_pair_mono (m1 e1 m2 e2 : Z) :
  0 < m1 -> 0 < m2 -> prec <= Zdigits2 m1 -> prec <= Zdigits2 m2 ->
  dyadic_le m1 e1 m2 e2 ->
  pair_le (round_pair m1 e1) (round_pair m2 e2).
Proof.
  intros Hm1 Hm2 Hd1 Hd2 Hle.
  assert (Hp : prec = 53) by reflexivity.
  destruct (Zdigits2_bounds m1 Hm1) as (_ & Hl1 & Hu1).
  destruct (Zdigits2_bounds m2 Hm2) as (_ & Hl2 & Hu2).
  pose proof (rne_normal m1 Hm1 Hd1) as Hb1.
  pose proof (rne_normal m2 Hm2 Hd2) as Hb2.
  unfold dyadic_le in Hle.
  set (o := Z.min e1 e2) in *.
  set (d1 := Zdigits2 m1) in *. set (d2 := Zdigits2 m2) in *.
  (* the magnitudes are ordered *)
  assert (Hmag : d1 + e1 <= d2 + e2).
  { assert (H1 : 2 ^ (d1 - 1 + (e1 - o)) <= m1 * 2 ^ (e1 - o)).
    { rewrite Z.pow_add_r by lia. apply Z.mul_le_mono_nonneg_r; [apply Z.pow_nonneg |]; lia. }
    assert (H2 : m2 * 2 ^ (e2 - o) < 2 ^ (d2 + (e2 - o))).
    { rewrite Z.pow_add_r by lia. apply Z.mul_lt_mono_pos_r; [apply Z.pow_pos_nonneg |]; lia. }
    assert (H3 : d1 - 1 + (e1 - o) < d2 + (e2 - o)) by (apply pow2_lt_inv; lia).
    lia. }
  unfold round_pair, pair_le. cbv zeta. fold d1 d2.
  set (n1 := d1 - prec) in *. set (n2 := d2 - prec) in *.
  destruct (Z.eq_dec (d1 + e1) (d2 + e2)) as [Heq | Hne].
  - (* same binade before rounding: compare the rounded mantissas *)
    assert (Hq : rne m1 n1 <= rne m2 n2).
    { set (N := Z.max n1 n2).
      rewrite <- (rne_scale m1 n1 (N - n1)), <- (rne_scale m2 n2 (N - n2)) by lia.
      replace (n1 + (N - n1)) with N by lia. replace (n2 + (N - n2)) with N by lia.
      replace (N - n1) with (e1 - o) by lia. replace (N - n2) with (e2 - o) by lia.
      apply rne_mono; [lia |]. split; [| exact Hle].
      apply Z.mul_nonneg_nonneg; [lia | apply Z.pow_nonneg; lia]. }
    destruct (Z.ltb_spec (rne m1 n1) (2 ^ prec)), (Z.ltb_spec (rne m2 n2) (2 ^ prec));
      cbn [fst snd]; lia.
  - destruct (Z.ltb_spec (rne m1 n1) (2 ^ prec)), (Z.ltb_spec (rne m2 n2) (2 ^ prec));
      cbn [fst snd]; lia.
Qed.

Lemma pack_le (a b : Z * Z) :
  normal a -> normal b -> pair_le a b -> SFleb (pack a) (pack b) = true.
Proof.
  intros Ha Hb Hle. destruct a as [ma ea], b as [mb eb].
  unfold normal, pair_le, pack in *. cbn [fst snd] in *.
  assert (Hp : prec = 53) by reflexivity.
  assert (0 < 2 ^ (prec - 1)) by (apply Z.pow_pos_nonneg; lia).
  destruct (Z.leb_spec ea (emax - prec)), (Z.leb_spec eb (emax - prec));
    try reflexivity; [| lia].
  unfold SFleb, SFcompare.
  destruct Hle as [Hlt | [-> Hm]].
  - apply Z.compare_lt_iff in Hlt. rewrite Hlt. reflexivity.
  - rewrite Z.compare_refl. change (Pos.compare_cont Eq) with Pos.compare.
    destruct (Pos.compare_spec (Z.to_pos ma) (Z.to_pos mb)) as [| | Hgt];
      try reflexivity.
    apply Pos2Z.pos_lt_pos in Hgt. rewrite !Z2Pos.id in Hgt by lia. lia.
Qed.

Lemma pair_le_dyadic (m1 e1 m2 e2 : Z) :
  normal (m1, e1) -> normal (m2, e2) -> pair_le (m1, e1) (m2, e2) ->
  dyadic_le m1 e1 m2 e2.
Proof.
  unfold normal, pair_le, dyadic_le. cbn [fst snd]. intros H1 H2 Hle.
  assert (Hp : prec = 53) by reflexivity.
  change (2 ^ prec) with (2 * 2 ^ (prec - 1)) in *.
  assert (0 < 2 ^ (prec - 1)) by (apply Z.pow_pos_nonneg; lia).
  destruct Hle as [Hlt | [-> Hm]].
  - rewrite Z.min_l by lia. rewrite Z.sub_diag, Z.pow_0_r.
    assert (2 <= 2 ^ (e2 - e1)).
    { change 2 with (2 ^ 1) at 1. apply Z.pow_le_mono_r; lia. }
    nia.
  - rewrite Z.min_id, Z.sub_diag, Z.pow_0_r. lia.
Qed.

Lemma dyadic_le_scale (m1 e1 m2 e2 c ec : Z) :
  0 <= c -> dyadic_le m1 e1 m2 e2 ->
  dyadic_le (m1 * c) (e1 + ec) (m2 * c) (e2 + ec).
Proof.
  unfold dyadic_le. intros Hc H.
  replace (Z.min (e1 + ec) (e2 + ec)) with (Z.min e1 e2 + ec) by lia.
  replace (e1 + ec - (Z.min e1 e2 + ec)) with (e1 - Z.min e1 e2) by lia.
  replace (e2 + ec - (Z.min e1 e2 + ec)) with (e2 - Z.min e1 e2) by lia.
  rewrite (Z.mul_comm m1 c), (Z.mul_comm m2 c), <- !Z.mul_assoc.
  apply Z.mul_le_mono_nonneg_l; assumption.
Qed.

Lemma Zdigits2_shift (k t : Z) :
  0 < k -> 0 <= t -> Zdigits2 (k * 2 ^ t) = Zdigits2 k + t.
Proof.
  intros Hk Ht. destruct (Zdigits2_bounds k Hk) as (Hd & Hl & Hu).
  assert (0 < 2 ^ t) by (apply Z.pow_pos_nonneg; lia).
  apply Zdigits2_unique; [| lia].
  replace (Zdigits2 k + t - 1) with (Zdigits2 k - 1 + t) by lia.
  rewrite !Z.pow_add_r by lia. split.
  - apply Z.mul_le_mono_nonneg_r; lia.
  - apply Z.mul_lt_mono_pos_r; lia.
Qed.

Lemma aligned_spec (k : Z) :
  0 < k ->
  0 < fst (aligned k)
  /\ prec <= Zdigits2 (fst (aligned k))
  /\ Zdigits2 (fst (aligned k)) + snd (aligned k) = Zdigits2 k
  /\ snd (aligned k) <= 0
  /\ fst (aligned k) = k * 2 ^ (- snd (aligned k)).
Proof.
  intros Hk. destruct (Zdigits2_bounds k Hk) as (Hd & _).
  assert (Hp : prec = 53) by reflexivity.
  unfold aligned. cbv zeta.
  destruct (Z.ltb_spec (Zdigits2 k) prec); cbn [fst snd].
  - assert (0 < 2 ^ (prec - Zdigits2 k)) by (apply Z.pow_pos_nonneg; lia).
    rewrite Zdigits2_shift by lia.
    repeat split; try lia. f_equal. f_equal. lia.
  - repeat split; try lia.
Qed.

Lemma binary_normalize_conv (k : Z) :
  0 < k -> binary_normalize prec emax k 0 false = pack (conv k).
Proof.
  intros Hk. destruct (aligned_spec k Hk) as (Hm & Hd & Hsum & _ & _).
  destruct (Zdigits2_bounds k Hk) as (Hdk & _).
  assert (Hp : prec = 53) by reflexivity.
  assert (Hemin : emin = -1074) by reflexivity.
  unfold conv. rewrite <- round_aux_spec by lia.
  destruct k as [| p | p]; try lia.
  cbn [binary_normalize]. unfold binary_round, shl_align, aligned in *.
  cbn [Zdigits2] in *. cbv zeta in *.
  replace (fexp prec emax (Z.pos (digits2_pos p) + 0)) with (Z.pos (digits2_pos p) - prec)
    by (unfold fexp; lia).
  destruct (Z.ltb_spec (Z.pos (digits2_pos p)) prec) as [Hlt | Hge]; cbn [fst snd].
  - destruct (Z.pos (digits2_pos p) - prec - 0) as [| x | x] eqn:Hx; try lia.
    replace (prec - Z.pos (digits2_pos p)) with (Z.pos x) by lia.
    f_equal. fold (shift_pos x p). rewrite shift_pos_correct.
    change (Z.pow_pos 2 x) with (2 ^ Z.pos x). lia.
  - destruct (Z.pos (digits2_pos p) - prec - 0) as [| x | x] eqn:Hx; try lia; reflexivity.
Qed.

Lemma conv_normal (k : Z) : 0 < k -> normal (conv k).
Proof.
  intros Hk. destruct (aligned_spec k Hk) as (Hm & Hd & _).
  apply round_pair_normal; assumption.
Qed.

Lemma round_pair_exponent (m e : Z) :
  Zdigits2 m + e - prec <= snd (round_pair m e) <= Zdigits2 m + e - prec + 1.
Proof.
  unfold round_pair. cbv zeta.
  destruct (rne m (Zdigits2 m - prec) <? 2 ^ prec); cbn [snd]; lia.
Qed.

Lemma conv_exponent (k : Z) : 0 < k -> 1 - prec <= snd (conv k).
Proof.
  intros Hk. destruct (aligned_spec k Hk) as (_ & _ & Hsum & _).
  destruct (Zdigits2_bounds k Hk) as (Hdk & _).
  pose proof (round_pair_exponent (fst (aligned k)) (snd (aligned k))).
  unfold conv. lia.
Qed.

Lemma dyadic_le_aligned (k1 k2 : Z) :
  0 < k1 <= k2 ->
  dyadic_le (fst (aligned k1)) (snd (aligned k1)) (fst (aligned k2)) (snd (aligned k2)).
Proof.
  intros Hk.
  destruct (aligned_spec k1 ltac:(lia)) as (_ & _ & _ & He1 & ->).
  destruct (aligned_spec k2 ltac:(lia)) as (_ & _ & _ & He2 & ->).
  unfold dyadic_le.
  set (e1 := snd (aligned k1)) in *. set (e2 := snd (aligned k2)) in *.
  rewrite <- !Z.mul_assoc, <- !Z.pow_add_r by lia.
  replace (- e1 + (e1 - Z.min e1 e2)) with (- Z.min e1 e2) by lia.
  replace (- e2 + (e2 - Z.min e1 e2)) with (- Z.min e1 e2) by lia.
  apply Z.mul_le_mono_nonneg_r; [apply Z.pow_nonneg |]; lia.
Qed.

Lemma conv_mono (k1 k2 : Z) : 0 < k1 <= k2 -> pair_le (conv k1) (conv k2).
Proof.
  intros Hk.
  destruct (aligned_spec k1 ltac:(lia)) as (? & ? & _).
  destruct (aligned_spec k2 ltac:(lia)) as (? & ? & _).
  apply round_pair_mono; try assumption. apply dyadic_le_aligned, Hk.
Qed.

(** Products with a positive normal constant. *)
Section Product.

Variables (mc : positive) (ec : Z).
Hypothesis mc_normal : 2 ^ (prec - 1) <= Z.pos mc < 2 ^ prec.
Hypothesis ec_bound : emin <= ec.

Lemma product_digits (a : Z * Z) :
  normal a -> 0 < fst a * Z.pos mc /\ 2 * prec - 1 <= Zdigits2 (fst a * Z.pos mc).
Proof.
  intros Ha. unfold normal in Ha.
  assert (Hp : prec = 53) by reflexivity.
  assert (Hpos : 0 < 2 ^ (prec - 1)) by (apply Z.pow_pos_nonneg; lia).
  assert (Hm : 0 < fst a * Z.pos mc) by nia.
  split; [exact Hm |].
  destruct (Zdigits2_bounds _ Hm) as (Hd & _ & Hu).
  assert (Hlow : 2 ^ (2 * prec - 2) <= fst a * Z.pos mc).
  { replace (2 * prec - 2) with ((prec - 1) + (prec - 1)) by lia.
    rewrite Z.pow_add_r by lia. apply Z.mul_le_mono_nonneg; lia. }
  assert (2 * prec - 2 < Zdigits2 (fst a * Z.pos mc)) by (apply pow2_lt_inv; lia).
  lia.
Qed.

Lemma SFmul_pack (a : Z * Z) :
  normal a -> 1 - prec <= snd a <= emax - prec ->
  SFmul prec emax (pack a) (S754_finite false mc ec) = pack (times mc ec a).
Proof.
  intros Ha He. destruct (product_digits a Ha) as [Hm Hd].
  assert (Hp : prec = 53) by reflexivity.
  assert (Hemin : emin = -1074) by reflexivity.
  unfold times. rewrite <- round_aux_spec by lia.
  unfold pack at 1. destruct (Z.leb_spec (snd a) (emax - prec)); [| lia].
  cbn [SFmul xorb]. rewrite Pos2Z.inj_mul, Z2Pos.id by lia. reflexivity.
Qed.

Lemma times_mono (a b : Z * Z) :
  normal a -> normal b -> pair_le a b -> pair_le (times mc ec a) (times mc ec b).
Proof.
  intros Ha Hb Hle.
  destruct (product_digits a Ha) as [Hma Hda].
  destruct (product_digits b Hb) as [Hmb Hdb].
  assert (Hp : prec = 53) by reflexivity.
  apply round_pair_mono; try lia.
  apply dyadic_le_scale; [lia |].
  destruct a, b. apply pair_le_dyadic; assumption.
Qed.

Lemma times_normal (a : Z * Z) : normal a -> normal (times mc ec a).
Proof.
  intros Ha. destruct (product_digits a Ha) as [Hm Hd].
  assert (Hp : prec = 53) by reflexivity.
  apply round_pair_normal; lia.
Qed.

End Product.

Lemma valid_pack (a : Z * Z) :
  normal a -> emin <= snd a -> valid_binary (pack a) = true.
Proof.
  intros Ha He. unfold pack.
  assert (Hp : prec = 53) by reflexivity.
  assert (Hpos : 0 < 2 ^ (prec - 1)) by (apply Z.pow_pos_nonneg; lia).
  unfold normal in Ha.
  destruct (Z.leb_spec (snd a) (emax - prec)) as [Hle | Hgt]; [| reflexivity].
  cbn [SpecFloat.valid_binary]. unfold bounded, canonical_mantissa.
  apply andb_true_intro. split; [| apply Z.leb_le; exact Hle].
  apply Z.eqb_eq.
  change (Z.pos (digits2_pos (Z.to_pos (fst a)))) with (Zdigits2 (Z.pos (Z.to_pos (fst a)))).
  rewrite Z2Pos.id by lia.
  rewrite (Zdigits2_unique (fst a) prec) by lia.
  unfold fexp. lia.
Qed.

(** ** [float(k)] and [k * z_step] *)

Lemma float_of_int_pos (k : Z) :
  0 < k ->
  float_of_int k
  = if snd (conv k) <=? emax - prec then Return (fz k) else Raise OverflowError.
Proof.
  intros Hk. unfold float_of_int, fz.
  rewrite binary_normalize_conv by assumption. unfold pack.
  destruct (snd (conv k) <=? emax - prec); reflexivity.
Qed.

Lemma float_of_int_fits (k : Z) (f : float) :
  0 < k -> float_of_int k = Return f ->
  f = fz k /\ snd (conv k) <= emax - prec.
Proof.
  intros Hk H. rewrite float_of_int_pos in H by assumption.
  destruct (Z.leb_spec (snd (conv k)) (emax - prec)); [| discriminate].
  split; [congruence | assumption].
Qed.

Lemma float_of_int_small (k : Z) :
  0 <= k < 2 ^ 1023 -> float_of_int k = Return (fz k).
Proof.
  intros [Hk Hu].
  destruct (Z.eq_dec k 0) as [-> | Hne]; [reflexivity |].
  assert (Hpos : 0 < k) by lia.
  rewrite float_of_int_pos by assumption.
  destruct (aligned_spec k Hpos) as (_ & _ & Hsum & _).
  destruct (Zdigits2_bounds k Hpos) as (Hd & Hl & _).
  pose proof (round_pair_exponent (fst (aligned k)) (snd (aligned k))) as He.
  fold (conv k) in He.
  assert (Zdigits2 k - 1 < 1023) by (apply pow2_lt_inv; lia).
  assert (Hp : prec = 53) by reflexivity.
  assert (Hemax : emax = 1024) by reflexivity.
  destruct (Z.leb_spec (snd (conv k)) (emax - prec)); [reflexivity | lia].
Qed.

(** A counter that fits a float leaves every smaller one fitting too. *)
Lemma fits_below (k1 k2 : Z) :
  0 <= k1 <= k2 -> float_of_int k2 = Return (fz k2) ->
  float_of_int k1 = Return (fz k1).
Proof.
  intros Hk Hfit.
  destruct (Z.eq_dec k1 0) as [-> | Hne]; [reflexivity |].
  assert (Hpos : 0 < k2) by lia.
  destruct (float_of_int_fits k2 _ Hpos Hfit) as [_ Hfit2].
  pose proof (conv_mono k1 k2 ltac:(lia)) as Hle. unfold pair_le in Hle.
  rewrite float_of_int_pos by lia.
  destruct (Z.leb_spec (snd (conv k1)) (emax - prec)); [reflexivity | lia].
Qed.

Section Rise.

Variables (c : float) (mc : positive) (ec : Z).
Hypothesis c_spec : Prim2SF c = S754_finite false mc ec.
Hypothesis mc_normal : 2 ^ (prec - 1) <= Z.pos mc < 2 ^ prec.
Hypothesis ec_bound : emin <= ec.

Lemma conv_valid (k : Z) : 0 < k -> valid_binary (pack (conv k)) = true.
Proof.
  intros Hk. apply valid_pack; [apply conv_normal, Hk |].
  pose proof (conv_exponent k Hk).
  assert (Hp : prec = 53) by reflexivity.
  assert (Hemin : emin = -1074) by reflexivity. lia.
Qed.

(** The height after [k] iterations is the product rounded once. *)
Lemma rise_spec (k : Z) :
  0 < k -> snd (conv k) <= emax - prec ->
  Prim2SF (rise c k) = pack (times mc ec (conv k)).
Proof.
  intros Hk Hfit. unfold rise, fz.
  rewrite mul_spec, c_spec, binary_normalize_conv by assumption.
  rewrite Prim2SF_SF2Prim by (apply conv_valid, Hk).
  apply SFmul_pack; try assumption; [apply conv_normal, Hk |].
  split; [apply conv_exponent, Hk | exact Hfit].
Qed.

Lemma rise_mono (k1 k2 : Z) :
  0 < k1 <= k2 -> snd (conv k2) <= emax - prec ->
  (rise c k1 <=? rise c k2)%float = true.
Proof.
  intros Hk Hfit.
  pose proof (conv_mono k1 k2 Hk) as Hle.
  assert (Hfit1 : snd (conv k1) <= emax - prec) by (unfold pair_le in Hle; lia).
  rewrite leb_spec, !rise_spec by (assumption || lia).
  apply pack_le.
  - apply times_normal; [assumption | apply conv_normal; lia].
  - apply times_normal; [assumption | apply conv_normal; lia].
  - apply times_mono; try assumption; apply conv_normal; lia.
Qed.

Lemma rise_nonneg (k : Z) :
  0 < k -> snd (conv k) <= emax - prec -> (0 <=? rise c k)%float = true.
Proof.
  intros Hk Hfit. rewrite leb_spec, rise_spec by assumption.
  change (Prim2SF 0) with (S754_zero false).
  unfold pack. destruct (snd _ <=? emax - prec); reflexivity.
Qed.

(** The height before the first iteration, as a product. *)
Lemma rise_zero : rise c 0 = 0%float.
Proof.
  apply Prim2SF_inj. unfold rise. rewrite mul_spec, c_spec. reflexivity.
Qed.

(** The heights are in order: [i * c <= j * c] for [i <= j], once both are
    rounded. *)
Lemma rise_mono_fits (k1 k2 : Z) :
  0 <= k1 <= k2 -> float_of_int k2 = Return (fz k2) ->
  (rise c k1 <=? rise c k2)%float = true.
Proof.
  intros Hk Hfit.
  destruct (Z.eq_dec k2 0) as [-> | Hne].
  { replace k1 with 0 by lia. rewrite rise_zero. reflexivity. }
  assert (Hpos : 0 < k2) by lia.
  destruct (float_of_int_fits k2 _ Hpos Hfit) as [_ Hfit2].
  destruct (Z.eq_dec k1 0) as [-> | Hne1].
  - rewrite rise_zero. apply rise_nonneg; assumption.
  - apply rise_mono; [lia | exact Hfit2].
Qed.

End Rise.

(** ** The [zs] column *)

Lemma heights_succ (z_step : float) (k : nat) :
  heights z_step (S k)
  = (heights z_step k ++ [rise z_step (Z.of_nat (S k))])%list.
Proof.
  unfold heights. rewrite seq_S, map_app. reflexivity.
Qed.

Lemma heights_length (z_step : float) (k : nat) :
  List.length (heights z_step k) = S k.
Proof. unfold heights. cbn [List.length]. rewrite length_map, length_seq. reflexivity. Qed.

Lemma heights_nth (z_step : float) (k i : nat) (d : float) :
  (i < k)%nat ->
  nth (S i) (heights z_step k) d = rise z_step (Z.of_nat (S i)).
Proof.
  intros Hi. unfold heights. cbn [nth].
  rewrite (nth_indep _ d (rise z_step (Z.of_nat 0)))
    by (rewrite length_map, length_seq; exact Hi).
  rewrite (map_nth (fun i => rise z_step (Z.of_nat i)) (seq 1 k) 0%nat i).
  rewrite seq_nth by exact Hi. reflexivity.
Qed.

(** ** The loop *)

Section LoopFacts.

Variable math : libm.
Variable next_n : Z -> string -> result Z.
Variables left right init_h z_step : float.
Variable scheme : string.

Let body := iteration math next_n left right z_step scheme.
Let run := while_loop math next_n left right z_step scheme.

Lemma invariant_start (n : Z) : loop_invariant z_step (start_state init_h n).
Proof. unfold loop_invariant. cbn. repeat split; reflexivity || lia. Qed.

(** What one iteration does to the state. *)
Lemma iteration_inv (st st' : turtle) :
  loop_invariant z_step st -> body st = Return st' ->
  next_n (t_n st) scheme = Return (t_n st')
  /\ t_step_count st' = t_step_count st + 1
  /\ loop_invariant z_step st'.
Proof.
  intros (Hc & _ & Hzs & Hxs & Hys & Hx0 & Hy0) H.
  unfold body, iteration, bind in H.
  destruct (next_n (t_n st) scheme) as [nxt |]; [| discriminate].
  destruct (step_length math nxt) as [step_len |]; [| discriminate].
  destruct (float_of_int (t_step_count st + 1)) as [k |] eqn:Hk; [| discriminate].
  injection H as <-. cbn [t_n t_step_count t_zs t_xs t_ys].
  assert (Hpos : 0 < t_step_count st + 1) by lia.
  destruct (float_of_int_fits _ _ Hpos Hk) as [-> Hfit].
  split; [reflexivity |]. split; [reflexivity |].
  unfold loop_invariant. cbn [t_n t_step_count t_zs t_xs t_ys].
  replace (Z.to_nat (t_step_count st + 1)) with (S (Z.to_nat (t_step_count st))) by lia.
  rewrite heights_succ, !length_app, Hxs, Hys, Hzs. cbn [List.length].
  replace (Z.of_nat (S (Z.to_nat (t_step_count st)))) with (t_step_count st + 1) by lia.
  repeat split; try lia; try assumption.
  - destruct (t_xs st); [discriminate Hxs | exact Hx0].
  - destruct (t_ys st); [discriminate Hys | exact Hy0].
Qed.

(** When the loop exits, the value is 1, the counter has advanced by the
    stopping time and the invariant holds. *)
Lemma while_loop_done (fuel : nat) (st st' : turtle) :
  loop_invariant z_step st -> run fuel st = Done st' ->
  t_n st' = 1
  /\ loop_invariant z_step st'
  /\ exists k, stopping_time next_n scheme fuel (t_n st) = Some k
               /\ t_step_count st' = t_step_count st + Z.of_nat k.
Proof.
  revert st. induction fuel as [| fuel IH]; intros st Hinv H;
    cbn [run while_loop stopping_time] in *;
    unfold run in H; cbn [while_loop] in H;
    destruct (Z.eqb_spec (t_n st) 1) as [H1 | H1].
  - injection H as <-. split; [assumption | split; [assumption |]].
    exists 0%nat. split; [reflexivity | lia].
  - discriminate.
  - injection H as <-. split; [assumption | split; [assumption |]].
    exists 0%nat. split; [reflexivity | lia].
  - fold body in H.
    destruct (body st) as [st1 |] eqn:Hit; [| discriminate].
    destruct (iteration_inv st st1 Hinv Hit) as (Hn & Hc & Hinv1).
    destruct (IH st1 Hinv1 H) as (Hone & Hinv' & k & Hk & Hcount).
    split; [assumption | split; [assumption |]]. exists (S k).
    rewrite Hn, Hk. split; [reflexivity | lia].
Qed.

(** More fuel does not change a finished run. *)
Lemma while_loop_more_fuel (fuel extra : nat) (st st' : turtle) :
  run fuel st = Done st' -> run (fuel + extra) st = Done st'.
Proof.
  unfold run. revert st. induction fuel as [| fuel IH]; intros st H.
  - cbn [while_loop] in H.
    destruct extra; cbn [Nat.add while_loop];
      destruct (t_n st =? 1); congruence.
  - cbn [Nat.add while_loop] in *.
    destruct (t_n st =? 1); [exact H |].
    destruct (iteration math next_n left right z_step scheme st);
      [apply IH, H | discriminate].
Qed.

(** A returned path is the columns of a state that left the loop at 1,
    after as many iterations as the stopping time of the start. *)
Lemma turtle_path_done (fuel : nat) (n : Z) (p : path) :
  turtle_path math next_n left right init_h z_step scheme fuel n = Done p ->
  exists st k,
    run fuel (start_state init_h n) = Done st
    /\ p = (t_xs st, t_ys st, t_zs st)
    /\ t_n st = 1
    /\ loop_invariant z_step st
    /\ stopping_time next_n scheme fuel n = Some k
    /\ t_step_count st = Z.of_nat k.
Proof.
  unfold turtle_path. fold run. intros H.
  destruct (run fuel (start_state init_h n)) as [st | |] eqn:Hloop;
    try discriminate.
  injection H as <-.
  destruct (while_loop_done _ _ _ (invariant_start n) Hloop)
    as (Hone & Hinv & k & Hk & Hcount).
  exists st, k. cbn [start_state t_n t_step_count] in Hk, Hcount.
  split; [reflexivity |]. split; [reflexivity |]. split; [exact Hone |].
  split; [exact Hinv |]. split; [exact Hk | lia].
Qed.

Lemma visited_more_fuel (fuel extra : nat) (st st' : turtle) :
  run fuel st = Done st' ->
  visited math next_n left right z_step scheme (fuel + extra) st
  = visited math next_n left right z_step scheme fuel st.
Proof.
  unfold run. revert st. induction fuel as [| fuel IH]; intros st H.
  - cbn [while_loop] in H.
    destruct extra; cbn [Nat.add visited];
      destruct (t_n st =? 1); congruence.
  - cbn [Nat.add while_loop visited] in *.
    destruct (t_n st =? 1); [reflexivity |].
    destruct (iteration math next_n left right z_step scheme st);
      [f_equal; apply IH, H | discriminate].
Qed.

End LoopFacts.

(** The path when the rise per step is a positive normal float: the
    columns, the origin and the order of the heights. *)
Section FixedRise.

Variable math : libm.
Variable next_n : Z -> string -> result Z.
Variables left right init_h z_step : float.
Variable scheme : string.
Variables (mc : positive) (ec : Z).
Hypothesis z_step_spec : Prim2SF z_step = S754_finite false mc ec.
Hypothesis mc_normal : 2 ^ (prec - 1) <= Z.pos mc < 2 ^ prec.
Hypothesis ec_bound : emin <= ec.

Lemma turtle_path_fixed_rise (fuel : nat) (start : Z) (xs ys zs : list float) :
  turtle_path math next_n left right init_h z_step scheme fuel start
  = Done (xs, ys, zs) ->
  exists k,
    stopping_time next_n scheme fuel start = Some k
    /\ List.length xs = S k /\ List.length ys = S k /\ List.length zs = S k
    /\ hd_error xs = Some 0%float
    /\ hd_error ys = Some 0%float
    /\ hd_error zs = Some 0%float
    /\ (forall i, (i < k)%nat ->
          (nth i zs 0 <=? nth (S i) zs 0)%float = true)
    /\ (forall i, (i <= k)%nat ->
          nth i zs 0%float = (fz (Z.of_nat i) * z_step)%float).
Proof.
  intros H.
  destruct (turtle_path_done _ _ _ _ _ _ _ _ _ _ H)
    as (st & k & _ & Hp & _ & Hinv & Hk & Hcount).
  injection Hp as -> -> ->.
  destruct Hinv as (_ & Hfit & Hzs & Hxs & Hys & Hx0 & Hy0).
  rewrite Hcount in *. rewrite Nat2Z.id in *.
  assert (Hnth : forall i, (i <= k)%nat ->
            nth i (heights z_step k) 0%float = rise z_step (Z.of_nat i)).
  { intros [| i] Hi.
    - symmetry. apply (rise_zero _ _ _ z_step_spec).
    - apply heights_nth. lia. }
  exists k. rewrite Hzs, heights_length.
  repeat (split; [assumption || reflexivity |]). split.
  - intros i Hi. rewrite !Hnth by lia.
    apply (rise_mono_fits _ _ _ z_step_spec mc_normal ec_bound); [lia |].
    apply (fits_below _ (Z.of_nat k)); [lia | exact Hfit].
  - exact Hnth.
Qed.

End FixedRise.

(** ** The recurrence *)

Example next_n_binary_27 : Collatz.next_n 27 "binary" = Return 82.
Proof. reflexivity. Qed.

Example next_n_unknown_scheme :
  Collatz.next_n 27 "quaternary" = Raise (ValueError bad_scheme).
Proof. reflexivity. Qed.

(** Decides the residue tests of an unfolded [next_n]. *)
Ltac residue_cases :=
  cbn [String.eqb Ascii.eqb Bool.eqb];
  repeat match goal with
         | |- context [Z.eqb ?a ?b] => destruct (Z.eqb_spec a b)
         end.

(** With [n mod 3 = 2] the numerator [2n + 2] is a multiple of 3 and
    [2n + 1] is one short of the next one. *)
Lemma residue_2_quotients (n : Z) :
  n mod 3 = 2 ->
  3 * ((2 * n + 2) / 3) = 2 * n + 2 /\ (2 * n + 1) / 3 = (2 * n + 2) / 3 - 1.
Proof.
  intros H.
  pose proof (Z.div_mod n 3 ltac:(lia)) as Hn.
  assert (E2 : 2 * n + 2 = (2 * (n / 3) + 2) * 3) by lia.
  assert (E1 : 2 * n + 1 = 2 + (2 * (n / 3) + 1) * 3) by lia.
  rewrite E2, Z.div_mul by lia.
  rewrite E1, Z.div_add by lia.
  change (2 / 3) with 0. lia.
Qed.

(** C1, as amended: on residue 2 the rule of [src/collatz.py] and of
    [src/old2.py] returns [(2n + 2) / 3], an exact quotient, while the rule
    of [src/collatz_dash.py] returns [(2n + 1) // 3], which is one less. *)
Theorem ternary_residue_2 (n : Z) :
  0 < n -> n mod 3 = 2 ->
  Collatz.next_n n "ternary" = Return ((2 * n + 2) / 3)
  /\ Old2.next_n n "ternary" = Return ((2 * n + 2) / 3)
  /\ Dash.next_n n "ternary" = Return ((2 * n + 2) / 3 - 1)
  /\ 3 * ((2 * n + 2) / 3) = 2 * n + 2.
Proof.
  intros _ H. destruct (residue_2_quotients n H) as [Hexact Hdash].
  unfold Collatz.next_n, Old2.next_n, Dash.next_n.
  residue_cases; try lia.
  rewrite Hdash. repeat split; try reflexivity. exact Hexact.
Qed.

Lemma ternary_residue_2_witness :
  0 < 5 /\ 5 mod 3 = 2
  /\ Collatz.next_n 5 "ternary" = Return ((2 * 5 + 2) / 3)
  /\ Old2.next_n 5 "ternary" = Return ((2 * 5 + 2) / 3)
  /\ Dash.next_n 5 "ternary" = Return ((2 * 5 + 2) / 3 - 1)
  /\ 3 * ((2 * 5 + 2) / 3) = 2 * 5 + 2.
Proof.
  split; [lia |]. split; [reflexivity |].
  apply (ternary_residue_2 5); [lia | reflexivity].
Defined.

(** C1, as stated, fails at [n = 2] in [src/collatz_dash.py]: the rule
    returns 1 there, not [(2 * 2 + 2) / 3 = 2]. *)
Lemma dash_ternary_2_is_not_2 :
  0 < 2 /\ 2 mod 3 = 2
  /\ Dash.next_n 2 "ternary" = Return 1
  /\ Dash.next_n 2 "ternary" <> Return ((2 * 2 + 2) / 3).
Proof. repeat split. discriminate. Qed.

(** C2, as amended: [next_n(6, "ternary")] is 2 and [next_n(4, "ternary")]
    is 5, the floor of 17 / 3, in every copy of the rule. *)
Theorem ternary_scenario :
  Collatz.next_n 6 "ternary" = Return 2
  /\ Collatz.next_n 4 "ternary" = Return 5
  /\ Dash.next_n 6 "ternary" = Return 2
  /\ Dash.next_n 4 "ternary" = Return 5
  /\ Old2.next_n 6 "ternary" = Return 2
  /\ Old2.next_n 4 "ternary" = Return 5.
Proof. repeat split. Qed.

(** C2, as stated, fails on its second half: [next_n(4, "ternary")] is
    not 3. *)
Lemma ternary_4_is_not_3 :
  Collatz.next_n 4 "ternary" = Return 5
  /\ Collatz.next_n 4 "ternary" <> Return 3.
Proof. split. reflexivity. discriminate. Qed.

(** C8: from [n >= 1] the binary rule returns, and returns a positive
    integer. *)
Theorem binary_positive (n : Z) :
  1 <= n -> exists m, Collatz.next_n n "binary" = Return m /\ 0 < m.
Proof.
  intros H. unfold Collatz.next_n. cbn [String.eqb Ascii.eqb Bool.eqb].
  destruct (Z.eqb_spec (n mod 2) 0) as [Heven | Hodd].
  - exists (n / 2). split; [reflexivity |].
    apply Z.div_str_pos. split; [lia |].
    destruct (Z.eq_dec n 1) as [-> | ]; [discriminate Heven | lia].
  - exists (3 * n + 1). split; [reflexivity | lia].
Qed.

Lemma binary_positive_witness :
  1 <= 7 /\ exists m, Collatz.next_n 7 "binary" = Return m /\ 0 < m.
Proof. split; [lia | apply (binary_positive 7); lia]. Defined.

Lemma floor_third_div (a : Z) : floor_third a (a / 3).
Proof.
  unfold floor_third.
  pose proof (Z.div_mod a 3 ltac:(lia)).
  pose proof (Z.mod_pos_bound a 3 ltac:(lia)). lia.
Qed.

(** C9: the ternary rule never raises.  Whatever the residue it returns the
    floor of its branch's quotient, in [src/collatz.py] and in
    [src/collatz_dash.py]; on residue 1 the numerator [4n + 1] is never a
    multiple of 3 (17 for [n = 4]), and the result is the quotient rounded
    down, [(4n - 1) / 3]. *)
Theorem ternary_total (n : Z) :
  0 < n ->
  exists m m',
    Collatz.next_n n "ternary" = Return m
    /\ floor_third (ternary_numerator 2 n) m
    /\ Dash.next_n n "ternary" = Return m'
    /\ floor_third (ternary_numerator 1 n) m'
    /\ (n mod 3 = 1 -> (4 * n + 1) mod 3 = 2 /\ 3 * m = 4 * n - 1 /\ m' = m).
Proof.
  intros _. unfold Collatz.next_n, Dash.next_n, ternary_numerator.
  cbn [String.eqb Ascii.eqb Bool.eqb]. cbv zeta.
  pose proof (Z.mod_pos_bound n 3 ltac:(lia)) as Hr.
  pose proof (Z.div_mod n 3 ltac:(lia)) as Hn.
  destruct (Z.eqb_spec (n mod 3) 0) as [H0 | H0];
    [| destruct (Z.eqb_spec (n mod 3) 1) as [H1 | H1]].
  - exists (n / 3), (n / 3).
    repeat split; try apply floor_third_div; lia.
  - exists ((4 * n + 1) / 3), ((4 * n + 1) / 3).
    assert (E : 4 * n + 1 = 2 + (4 * (n / 3) + 1) * 3) by lia.
    repeat split; try apply floor_third_div.
    + rewrite E, Z.add_mod, Z.mod_mul by lia. reflexivity.
    + rewrite E at 1. rewrite Z.div_add by lia. change (2 / 3) with 0. lia.
  - exists ((2 * n + 2) / 3), ((2 * n + 1) / 3).
    repeat split; try apply floor_third_div; lia.
Qed.

Lemma ternary_total_witness :
  0 < 4
  /\ Collatz.next_n 4 "ternary" = Return 5
  /\ (4 * 4 + 1) mod 3 = 2
  /\ exists m m',
       Collatz.next_n 4 "ternary" = Return m
       /\ floor_third (ternary_numerator 2 4) m
       /\ Dash.next_n 4 "ternary" = Return m'
       /\ floor_third (ternary_numerator 1 4) m'
       /\ (4 mod 3 = 1 ->
           (4 * 4 + 1) mod 3 = 2 /\ 3 * m = 4 * 4 - 1 /\ m' = m).
Proof.
  split; [lia |]. split; [reflexivity |]. split; [reflexivity |].
  apply (ternary_total 4). lia.
Defined.

(** C10: at 1 the binary rule returns 4, and 4 goes to 2 and 2 back to 1;
    the ternary rule returns 1. *)
Theorem rules_at_one :
  Collatz.next_n 1 "binary" = Return 4
  /\ Collatz.next_n 4 "binary" = Return 2
  /\ Collatz.next_n 2 "binary" = Return 1
  /\ Collatz.next_n 1 "ternary" = Return 1.
Proof. repeat split. Qed.

(** ** The path of [src/collatz.py] *)

Lemma Z_STEP_spec :
  Prim2SF Collatz.Z_STEP = S754_finite false 5404319552844595 (-55).
Proof. reflexivity. Qed.

Lemma Z_STEP_mantissa :
  2 ^ (prec - 1) <= Z.pos 5404319552844595 < 2 ^ prec.
Proof.
  change (2 ^ (prec - 1)) with 4503599627370496.
  change (2 ^ prec) with 9007199254740992. lia.
Qed.

Lemma Z_STEP_exponent : emin <= -55.
Proof. change emin with (-1074). lia. Qed.

(** C4, as amended: when [collatz_path_3d] returns, the three columns have
    one entry more than the stopping time of the start, the first point is
    the origin, the heights never decrease, and the height at index [i] is
    the binary64 product of [i] and [Z_STEP]; the difference of two
    consecutive heights is [Z_STEP] up to the rounding of those products. *)
Theorem fixed_rise_path (math : libm) (fuel : nat) (start : Z)
    (scheme : string) (xs ys zs : list float) :
  Collatz.collatz_path_3d math fuel start scheme = Done (xs, ys, zs) ->
  exists k,
    stopping_time Collatz.next_n scheme fuel start = Some k
    /\ List.length xs = S k /\ List.length ys = S k /\ List.length zs = S k
    /\ hd_error xs = Some 0%float
    /\ hd_error ys = Some 0%float
    /\ hd_error zs = Some 0%float
    /\ (forall i, (i < k)%nat ->
          (nth i zs 0 <=? nth (S i) zs 0)%float = true)
    /\ (forall i, (i <= k)%nat ->
          nth i zs 0%float = (fz (Z.of_nat i) * Collatz.Z_STEP)%float).
Proof.
  apply turtle_path_fixed_rise with (mc := 5404319552844595%positive) (ec := -55).
  - exact Z_STEP_spec.
  - exact Z_STEP_mantissa.
  - exact Z_STEP_exponent.
Qed.

Lemma fixed_rise_path_witness :
  stopping_time Collatz.next_n "binary" 8 6 = Some 8%nat
  /\ forall math, exists xs ys zs,
       Collatz.collatz_path_3d math 8 6 "binary" = Done (xs, ys, zs)
       /\ exists k,
            stopping_time Collatz.next_n "binary" 8 6 = Some k
            /\ List.length xs = S k /\ List.length ys = S k
            /\ List.length zs = S k
            /\ hd_error xs = Some 0%float
            /\ hd_error ys = Some 0%float
            /\ hd_error zs = Some 0%float
            /\ (forall i, (i < k)%nat ->
                  (nth i zs 0 <=? nth (S i) zs 0)%float = true)
            /\ (forall i, (i <= k)%nat ->
                  nth i zs 0%float
                  = (fz (Z.of_nat i) * Collatz.Z_STEP)%float).
Proof.
  split; [reflexivity |]. intros math.
  destruct (Collatz.collatz_path_3d math 8 6 "binary")
    as [[[xs ys] zs] | e | st] eqn:E;
    [| vm_compute in E; discriminate E | vm_compute in E; discriminate E].
  exists xs, ys, zs. split; [reflexivity |].
  exact (fixed_rise_path math 8 6 "binary" xs ys zs E).
Defined.

(** C4, as stated, fails at start 8: the path has the heights 0, 0.15, 0.3
    and 0.44999999999999996, and the last difference is not [Z_STEP]. *)
Lemma rise_not_exact_at_8 :
  stopping_time Collatz.next_n "binary" 3 8 = Some 3%nat
  /\ forall math, exists xs ys zs,
       Collatz.collatz_path_3d math 3 8 "binary" = Done (xs, ys, zs)
       /\ zs = [0; 0x1.3333333333333p-3; 0x1.3333333333333p-2;
                0x1.cccccccccccccp-2]%float
       /\ (nth 3 zs 0 - nth 2 zs 0 =? Collatz.Z_STEP)%float = false.
Proof.
  split; [reflexivity |]. intros math.
  destruct (Collatz.collatz_path_3d math 3 8 "binary")
    as [[[xs ys] zs] | e | st] eqn:E;
    vm_compute in E; try discriminate E.
  injection E as <- <- <-.
  eexists _, _, _. split; [reflexivity |]. split; reflexivity.
Qed.

(** C3: the binary rule takes 6 to 3 and 7 to 22; from 6 the loop goes
    through 6, 3, 10, 5, 16, 8, 4, 2, 1, which is 8 iterations (7 leave it
    running), and returns three columns of 9 entries, whatever fuel is left
    over. *)
Theorem binary_scenario (math : libm) (extra : nat) :
  Collatz.next_n 6 "binary" = Return 3
  /\ Collatz.next_n 7 "binary" = Return 22
  /\ Collatz.collatz_values math (8 + extra) 6 "binary"
     = [6; 3; 10; 5; 16; 8; 4; 2; 1]
  /\ stopping_time Collatz.next_n "binary" (8 + extra) 6 = Some 8%nat
  /\ (exists st, Collatz.collatz_path_3d math 7 6 "binary" = Running st
                 /\ t_n st = 2 /\ t_step_count st = 7)
  /\ exists xs ys zs,
       Collatz.collatz_path_3d math (8 + extra) 6 "binary" = Done (xs, ys, zs)
       /\ List.length xs = 9%nat /\ List.length ys = 9%nat
       /\ List.length zs = 9%nat.
Proof.
  destruct (while_loop math Collatz.next_n Collatz._left Collatz._right
              Collatz.Z_STEP "binary" 8 (start_state Collatz._init_h 6))
    as [st8 | e | st] eqn:E8;
    [| vm_compute in E8; discriminate E8 | vm_compute in E8; discriminate E8].
  split; [reflexivity |]. split; [reflexivity |]. split.
  { unfold Collatz.collatz_values.
    rewrite (visited_more_fuel _ _ _ _ _ _ _ _ _ _ E8). vm_compute. reflexivity. }
  split.
  { destruct (while_loop_done _ _ _ _ _ _ _ _ _
                (invariant_start Collatz._init_h Collatz.Z_STEP 6)
                (while_loop_more_fuel _ _ _ _ _ _ _ extra _ _ E8))
      as (_ & _ & k & Hk & Hcount).
    cbn [start_state t_n t_step_count] in Hk, Hcount.
    vm_compute in E8. injection E8 as <-. cbn [t_step_count] in Hcount.
    rewrite Hk. f_equal. lia. }
  split.
  - destruct (Collatz.collatz_path_3d math 7 6 "binary") as [p | e | st] eqn:E;
      vm_compute in E; try discriminate E.
    injection E as <-. eexists. split; [reflexivity |]. split; reflexivity.
  - unfold Collatz.collatz_path_3d, turtle_path.
    rewrite (while_loop_more_fuel _ _ _ _ _ _ _ extra _ _ E8).
    vm_compute in E8. injection E8 as <-.
    eexists _, _, _. split; [reflexivity |]. repeat split.
Qed.

(** ** The path of [src/collatz_dash.py] *)

(** X3: the same holds of [collatz_path_3d] of [src/collatz_dash.py]
    whenever its [z_step] is a positive normal float: when it returns, the
    columns have one entry more than the stopping time, the first point is
    the origin, the heights never decrease and the height at index [i] is
    the binary64 product of [i] and [z_step]. *)
Theorem dash_fixed_rise_path (math : libm) (fuel : nat) (start : Z)
    (left_deg right_deg z_step : float) (scheme : string)
    (xs ys zs : list float) (mc : positive) (ec : Z) :
  Prim2SF z_step = S754_finite false mc ec ->
  2 ^ (prec - 1) <= Z.pos mc < 2 ^ prec -> emin <= ec ->
  Dash.collatz_path_3d math fuel start left_deg right_deg z_step scheme
  = Done (xs, ys, zs) ->
  exists k,
    stopping_time Dash.next_n scheme fuel start = Some k
    /\ List.length xs = S k /\ List.length ys = S k /\ List.length zs = S k
    /\ hd_error xs = Some 0%float
    /\ hd_error ys = Some 0%float
    /\ hd_error zs = Some 0%float
    /\ (forall i, (i < k)%nat ->
          (nth i zs 0 <=? nth (S i) zs 0)%float = true)
    /\ (forall i, (i <= k)%nat ->
          nth i zs 0%float = (fz (Z.of_nat i) * z_step)%float).
Proof.
  intros Hspec Hmc Hec. unfold Dash.collatz_path_3d.
  apply turtle_path_fixed_rise with (mc := mc) (ec := ec); assumption.
Qed.

(** The defaults of the page: 8.65 and 16 degrees, and 0.2 per step. *)
Lemma dash_fixed_rise_path_witness :
  Prim2SF 0x1.999999999999ap-3
  = S754_finite false 7205759403792794 (-55)
  /\ 2 ^ (prec - 1) <= Z.pos 7205759403792794 < 2 ^ prec
  /\ emin <= -55
  /\ forall math, exists xs ys zs,
       Dash.collatz_path_3d math 8 6 0x1.14ccccccccccdp+3 16
         0x1.999999999999ap-3 "binary" = Done (xs, ys, zs)
       /\ exists k,
            stopping_time Dash.next_n "binary" 8 6 = Some k
            /\ List.length xs = S k /\ List.length ys = S k
            /\ List.length zs = S k
            /\ hd_error xs = Some 0%float
            /\ hd_error ys = Some 0%float
            /\ hd_error zs = Some 0%float
            /\ (forall i, (i < k)%nat ->
                  (nth i zs 0 <=? nth (S i) zs 0)%float = true)
            /\ (forall i, (i <= k)%nat ->
                  nth i zs 0%float
                  = (fz (Z.of_nat i) * 0x1.999999999999ap-3)%float).
Proof.
  assert (Hmc : 2 ^ (prec - 1) <= Z.pos 7205759403792794 < 2 ^ prec).
  { change (2 ^ (prec - 1)) with 4503599627370496.
    change (2 ^ prec) with 9007199254740992. lia. }
  assert (Hec : emin <= -55) by exact Z_STEP_exponent.
  split; [reflexivity |]. split; [exact Hmc |]. split; [exact Hec |].
  intros math.
  destruct (Dash.collatz_path_3d math 8 6 0x1.14ccccccccccdp+3 16
              0x1.999999999999ap-3 "binary")
    as [[[xs ys] zs] | e | st] eqn:E;
    [| vm_compute in E; discriminate E | vm_compute in E; discriminate E].
  exists xs, ys, zs. split; [reflexivity |].
  exact (dash_fixed_rise_path math 8 6 _ _ 0x1.999999999999ap-3 "binary"
           xs ys zs 7205759403792794 (-55) eq_refl Hmc Hec E).
Defined.

(** ** No ceiling on the iterations *)

Lemma step_length_2 (math : libm) :
  step_length math 2 = Return (1 / log math 3)%float.
Proof. reflexivity. Qed.

(** At 2 the ternary rule of [src/collatz.py] stays at 2, so an iteration
    only counts and stores one more point. *)
Lemma ternary_2_iteration (math : libm) (st : turtle) :
  t_n st = 2 -> 0 <= t_step_count st -> t_step_count st + 1 < 2 ^ 1023 ->
  exists st',
    iteration math Collatz.next_n Collatz._left Collatz._right
      Collatz.Z_STEP "ternary" st = Return st'
    /\ t_n st' = 2
    /\ t_step_count st' = t_step_count st + 1
    /\ List.length (t_xs st') = S (List.length (t_xs st))
    /\ List.length (t_ys st') = S (List.length (t_ys st))
    /\ List.length (t_zs st') = S (List.length (t_zs st)).
Proof.
  intros Hn Hc Hb. unfold iteration. rewrite Hn.
  change (Collatz.next_n 2 "ternary") with (Return (A := Z) 2).
  cbn [bind]. rewrite step_length_2. cbn [bind].
  rewrite float_of_int_small by lia. cbn [bind].
  eexists. split; [reflexivity |].
  cbn [t_n t_step_count t_xs t_ys t_zs]. rewrite !length_app.
  cbn [List.length]. repeat split; lia.
Qed.

Lemma ternary_2_loop (math : libm) (fuel : nat) (st : turtle) :
  t_n st = 2 -> 0 <= t_step_count st ->
  t_step_count st + Z.of_nat fuel < 2 ^ 1023 ->
  exists st',
    while_loop math Collatz.next_n Collatz._left Collatz._right
      Collatz.Z_STEP "ternary" fuel st = Running st'
    /\ t_n st' = 2
    /\ t_step_count st' = t_step_count st + Z.of_nat fuel
    /\ List.length (t_xs st') = (List.length (t_xs st) + fuel)%nat
    /\ List.length (t_ys st') = (List.length (t_ys st) + fuel)%nat
    /\ List.length (t_zs st') = (List.length (t_zs st) + fuel)%nat.
Proof.
  revert st. induction fuel as [| fuel IH]; intros st Hn Hc Hb;
    cbn [while_loop]; rewrite Hn; cbn [Z.eqb Pos.eqb].
  - exists st. repeat split; try assumption; lia.
  - destruct (ternary_2_iteration math st Hn Hc ltac:(lia))
      as (st1 & -> & Hn1 & Hc1 & Hx1 & Hy1 & Hz1).
    destruct (IH st1 Hn1 ltac:(lia) ltac:(lia))
      as (st' & -> & Hn' & Hc' & Hx' & Hy' & Hz').
    exists st'. repeat split; try assumption; lia.
Qed.

(** C5, as amended: the loop has no ceiling.  It returns only when the
    sequence has reached 1, and from 2 under the ternary rule of
    [src/collatz.py], which stays at 2, it is still iterating after any
    number of iterations below 2^1023, with one more point in each column
    per iteration; nothing raises a divergence condition. *)
Theorem no_iteration_ceiling (math : libm) (fuel : nat) :
  Z.of_nat fuel < 2 ^ 1023 ->
  (forall start scheme p,
     Collatz.collatz_path_3d math fuel start scheme = Done p ->
     exists k, stopping_time Collatz.next_n scheme fuel start = Some k)
  /\ exists st,
       Collatz.collatz_path_3d math fuel 2 "ternary" = Running st
       /\ t_n st = 2
       /\ t_step_count st = Z.of_nat fuel
       /\ List.length (t_xs st) = S fuel
       /\ List.length (t_ys st) = S fuel
       /\ List.length (t_zs st) = S fuel.
Proof.
  intros Hb. split.
  - intros start scheme p H.
    destruct (turtle_path_done _ _ _ _ _ _ _ _ _ _ H)
      as (st & k & _ & _ & _ & _ & Hk & _).
    exists k. exact Hk.
  - destruct (ternary_2_loop math fuel (start_state Collatz._init_h 2)
                eq_refl ltac:(cbn; lia) ltac:(cbn; lia))
      as (st & Hrun & Hn & Hc & Hx & Hy & Hz).
    exists st. unfold Collatz.collatz_path_3d, turtle_path. rewrite Hrun.
    cbn in Hc, Hx, Hy, Hz. repeat split; assumption.
Qed.

Lemma no_iteration_ceiling_witness :
  Z.of_nat 10 < 2 ^ 1023
  /\ forall math,
       (forall start scheme p,
          Collatz.collatz_path_3d math 10 start scheme = Done p ->
          exists k, stopping_time Collatz.next_n scheme 10 start = Some k)
       /\ exists st,
            Collatz.collatz_path_3d math 10 2 "ternary" = Running st
            /\ t_n st = 2
            /\ t_step_count st = Z.of_nat 10
            /\ List.length (t_xs st) = 11%nat
            /\ List.length (t_ys st) = 11%nat
            /\ List.length (t_zs st) = 11%nat.
Proof.
  assert (H : Z.of_nat 10 < 2 ^ 1023) by reflexivity.
  split; [exact H |]. intros math. exact (no_iteration_ceiling math 10 H).
Defined.

(** C5, as stated, fails at start 2 under the ternary rule of
    [src/collatz.py]: the sequence never leaves 2, and after 1000
    iterations the loop has neither returned nor raised; it holds 1001
    points and goes on. *)
Lemma ternary_2_keeps_running :
  Collatz.next_n 2 "ternary" = Return 2
  /\ forall math, exists st,
       Collatz.collatz_path_3d math 1000 2 "ternary" = Running st
       /\ t_n st = 2
       /\ t_step_count st = 1000
       /\ List.length (t_zs st) = 1001%nat.
Proof.
  split; [reflexivity |]. intros math.
  destruct (ternary_2_loop math 1000 (start_state Collatz._init_h 2)
              eq_refl ltac:(cbn; lia) ltac:(cbn; lia))
    as (st & Hrun & Hn & Hc & _ & _ & Hz).
  exists st. unfold Collatz.collatz_path_3d, turtle_path. rewrite Hrun.
  cbn in Hc, Hz. repeat split; assumption.
Qed.

(** ** The sample *)

Lemma range_length (a b : Z) : List.length (range a b) = Z.to_nat (b - a).
Proof. unfold range. rewrite length_map, length_seq. reflexivity. Qed.

Lemma range_In (a b x : Z) : In x (range a b) <-> a <= x < b.
Proof.
  unfold range. rewrite in_map_iff. split.
  - intros (i & <- & Hi). apply in_seq in Hi. lia.
  - intros Hx. exists (Z.to_nat (x - a)). split; [lia |].
    apply in_seq. lia.
Qed.

Lemma range_NoDup (a b : Z) : NoDup (range a b).
Proof.
  unfold range. apply Injective_map_NoDup; [| apply seq_NoDup].
  intros i j H. lia.
Qed.

Lemma mem_In (v : Z) (l : list Z) : mem v l = true <-> In v l.
Proof.
  unfold mem. rewrite existsb_exists. split.
  - intros (x & Hx & Heq). apply Z.eqb_eq in Heq. subst. exact Hx.
  - intros H. exists v. split; [exact H | apply Z.eqb_refl].
Qed.

Lemma first_k_draws : draws_without_replacement first_k.
Proof.
  intros population k Hk. unfold first_k. split; [| split].
  - apply firstn_length_le, Hk.
  - intros x Hx. rewrite <- (firstn_skipn k population).
    apply in_or_app. left. exact Hx.
  - intros Hnd. rewrite <- (firstn_skipn k population) in Hnd.
    apply NoDup_app_remove_r in Hnd. exact Hnd.
Qed.

(** A draw that succeeds returns as many values as asked, all of the
    population and no two alike. *)
Lemma random_sample_returns (choose : list Z -> nat -> list Z)
    (population : list Z) (k : Z) :
  draws_without_replacement choose ->
  0 <= k <= Z.of_nat (List.length population) ->
  random_sample choose population k = Return (choose population (Z.to_nat k))
  /\ List.length (choose population (Z.to_nat k)) = Z.to_nat k
  /\ incl (choose population (Z.to_nat k)) population
  /\ (NoDup population -> NoDup (choose population (Z.to_nat k))).
Proof.
  intros Hdraw Hk. unfold random_sample.
  destruct (Z.ltb_spec k 0); [lia |].
  destruct (Z.ltb_spec (Z.of_nat (List.length population)) k); [lia |].
  split; [reflexivity |]. apply Hdraw. lia.
Qed.

Lemma random_sample_raises (choose : list Z -> nat -> list Z)
    (population : list Z) (k : Z) :
  Z.of_nat (List.length population) < k ->
  random_sample choose population k
  = Raise (ValueError "Sample larger than population or is negative").
Proof.
  intros Hk. unfold random_sample.
  destruct (Z.ltb_spec (Z.of_nat (List.length population)) k); [| lia].
  rewrite orb_true_r. reflexivity.
Qed.

(** C6, on [src/collatz.py]: [plot_shrub] passes the count to
    [random.sample] as it is, so a count above the population size
    [max_start - 2] raises [ValueError]; nothing clamps it. *)
Theorem plot_shrub_oversized_sample (choose : list Z -> nat -> list Z)
    (n_samples max_start : Z) (scheme : string) :
  2 < max_start -> max_start - 2 < n_samples ->
  Collatz.plot_shrub_starts choose n_samples max_start scheme
  = Raise (ValueError "Sample larger than population or is negative").
Proof.
  intros Hm Hn. unfold Collatz.plot_shrub_starts.
  rewrite random_sample_raises; [reflexivity |].
  rewrite range_length. lia.
Qed.

Lemma plot_shrub_oversized_sample_witness :
  2 < 5 /\ 5 - 2 < 10
  /\ forall choose,
       Collatz.plot_shrub_starts choose 10 5 "binary"
       = Raise (ValueError "Sample larger than population or is negative").
Proof.
  split; [lia |]. split; [lia |]. intros choose.
  apply (plot_shrub_oversized_sample choose 10 5 "binary"); lia.
Defined.





(** X2: what [plot_shrub] of [src/collatz.py] does keep: when the draw
    succeeds the starting values hold the reference value, which is
    appended exactly when the draw missed it, so there are as many values
    as asked or one more. *)
Theorem plot_shrub_keeps_hero (choose : list Z -> nat -> list Z)
    (n_samples max_start : Z) (scheme : string) (starts : list Z) :
  draws_without_replacement choose ->
  Collatz.plot_shrub_starts choose n_samples max_start scheme = Return starts ->
  exists drawn,
    random_sample choose (range 2 max_start) n_samples = Return drawn
    /\ List.length drawn = Z.to_nat n_samples
    /\ In (Collatz.hero scheme) starts
    /\ (In (Collatz.hero scheme) drawn -> starts = drawn)
    /\ (~ In (Collatz.hero scheme) drawn ->
        starts = (drawn ++ [Collatz.hero scheme])%list)
    /\ n_samples <= Z.of_nat (List.length starts) <= n_samples + 1.
Proof.
  intros Hdraw H. unfold Collatz.plot_shrub_starts in H.
  unfold random_sample in *.
  destruct (Z.ltb_spec n_samples 0); [discriminate H |].
  destruct (Z.ltb_spec (Z.of_nat (List.length (range 2 max_start))) n_samples);
    [discriminate H |].
  cbn [orb bind] in *.
  destruct (Hdraw (range 2 max_start) (Z.to_nat n_samples) ltac:(lia))
    as (Hl & _ & _).
  set (drawn := choose (range 2 max_start) (Z.to_nat n_samples)) in *.
  exists drawn. split; [reflexivity |]. split; [exact Hl |].
  destruct (mem (Collatz.hero scheme) drawn) eqn:Hmem;
    cbn [negb] in H; injection H as <-.
  - apply mem_In in Hmem. repeat split; try tauto. all: lia.
  - assert (Hout : ~ In (Collatz.hero scheme) drawn).
    { intros Hin. apply mem_In in Hin. congruence. }
    rewrite length_app. cbn [List.length].
    repeat split; try tauto; try lia.
    apply in_or_app. right. left. reflexivity.
Qed.

Lemma plot_shrub_keeps_hero_witness :
  draws_without_replacement first_k
  /\ Collatz.plot_shrub_starts first_k 3 100 "ternary" = Return [2; 3; 4; 91]
  /\ exists drawn,
       random_sample first_k (range 2 100) 3 = Return drawn
       /\ List.length drawn = Z.to_nat 3
       /\ In (Collatz.hero "ternary") [2; 3; 4; 91]
       /\ (In (Collatz.hero "ternary") drawn -> [2; 3; 4; 91] = drawn)
       /\ (~ In (Collatz.hero "ternary") drawn ->
           [2; 3; 4; 91] = (drawn ++ [Collatz.hero "ternary"])%list)
       /\ 3 <= Z.of_nat (List.length [2; 3; 4; 91]) <= 3 + 1.
Proof.
  split; [exact first_k_draws |]. split; [reflexivity |].
  exact (plot_shrub_keeps_hero first_k 3 100 "ternary" [2; 3; 4; 91]
           first_k_draws eq_refl).
Defined.

(** ** The reference value of the ternary rule *)

(** A value other than 1 whose successor never reaches 1 never reaches 1. *)
Lemma never_stops_before (next_n : Z -> string -> result Z) (scheme : string)
    (n m : Z) :
  n <> 1 -> next_n n scheme = Return m ->
  (forall fuel, stopping_time next_n scheme fuel m = None) ->
  forall fuel, stopping_time next_n scheme fuel n = None.
Proof.
  intros Hn Hnext Hm fuel. destruct fuel as [| fuel]; cbn [stopping_time];
    destruct (Z.eqb_spec n 1); try contradiction; try reflexivity.
  rewrite Hnext, Hm. reflexivity.
Qed.

(** Under the ternary rule of [src/collatz.py], 4 and 5 send to each
    other. *)
Lemma ternary_4_5_cycle (fuel : nat) :
  stopping_time Collatz.next_n "ternary" fuel 4 = None
  /\ stopping_time Collatz.next_n "ternary" fuel 5 = None.
Proof.
  induction fuel as [| fuel [IH4 IH5]]; [split; reflexivity |].
  split; cbn [stopping_time].
  - change (Collatz.next_n 4 "ternary") with (Return (A := Z) 5).
    cbn [Z.eqb Pos.eqb]. rewrite IH5. reflexivity.
  - change (Collatz.next_n 5 "ternary") with (Return (A := Z) 4).
    cbn [Z.eqb Pos.eqb]. rewrite IH4. reflexivity.
Qed.

(** X4: the reference value of the ternary scheme, 91, never reaches 1
    under the rule of [src/collatz.py]: it goes 91, 121, 161, 108, 36, 12,
    4 and then around 4, 5, 4, so [collatz_path_3d] never returns its
    path.  Under the rule of [src/collatz_dash.py] it reaches 1 in 11
    steps. *)
Theorem ternary_hero_never_returns (math : libm) (fuel : nat) :
  Collatz.hero "ternary" = 91
  /\ stopping_time Collatz.next_n "ternary" fuel 91 = None
  /\ (forall p, Collatz.collatz_path_3d math fuel 91 "ternary" <> Done p)
  /\ stopping_time Dash.next_n "ternary" 11 91 = Some 11%nat.
Proof.
  assert (Hnone : forall fuel,
            stopping_time Collatz.next_n "ternary" fuel 91 = None).
  { apply (never_stops_before _ _ 91 121); [lia | reflexivity |].
    apply (never_stops_before _ _ 121 161); [lia | reflexivity |].
    apply (never_stops_before _ _ 161 108); [lia | reflexivity |].
    apply (never_stops_before _ _ 108 36); [lia | reflexivity |].
    apply (never_stops_before _ _ 36 12); [lia | reflexivity |].
    apply (never_stops_before _ _ 12 4); [lia | reflexivity |].
    intros f. apply ternary_4_5_cycle. }
  split; [reflexivity |]. split; [apply Hnone |]. split; [| reflexivity].
  intros p H. unfold Collatz.collatz_path_3d in H.
  destruct (turtle_path_done _ _ _ _ _ _ _ _ _ _ H)
    as (st & k & _ & _ & _ & _ & Hk & _).
  rewrite Hnone in Hk. discriminate Hk.
Qed.

(** * Which exceptions the loop can raise *)

(** ** Sums: [float(k) + 1.0] *)

Lemma shl_align_spec (m : positive) (e e' : Z) :
  e' <= e -> Z.pos (fst (shl_align m e e')) = Z.pos m * 2 ^ (e - e').
Proof.
  intros He. unfold shl_align.
  destruct (e' - e) as [| d | d] eqn:Hd; cbn [fst]; try lia.
  - replace (e - e') with 0 by lia. lia.
  - fold (shift_pos d m). rewrite shift_pos_correct.
    change (Z.pow_pos 2 d) with (2 ^ Z.pos d).
    replace (e - e') with (Z.pos d) by lia. lia.
Qed.

(** Rounding a positive integer mantissa at any exponent. *)
Lemma binary_normalize_round (m e : Z) :
  0 < m -> emin <= Zdigits2 m + e - prec ->
  binary_normalize prec emax m e false
  = pack (round_pair (fst (aligned m)) (e + snd (aligned m))).
Proof.
  intros Hm He. destruct (aligned_spec m Hm) as (Ha & Hd & Hsum & _ & _).
  destruct (Zdigits2_bounds m Hm) as (Hdm & _).
  assert (Hp : prec = 53) by reflexivity.
  rewrite <- round_aux_spec by lia.
  destruct m as [| p | p]; try lia.
  cbn [binary_normalize]. unfold binary_round, shl_align, aligned in *.
  cbn [Zdigits2] in *. cbv zeta in *.
  replace (fexp prec emax (Z.pos (digits2_pos p) + e))
    with (Z.pos (digits2_pos p) + e - prec) by (unfold fexp; lia).
  destruct (Z.ltb_spec (Z.pos (digits2_pos p)) prec) as [Hlt | Hge]; cbn [fst snd].
  - destruct (Z.pos (digits2_pos p) + e - prec - e) as [| x | x] eqn:Hx; try lia.
    replace (prec - Z.pos (digits2_pos p)) with (Z.pos x) by lia.
    f_equal; [| lia]. fold (shift_pos x p). rewrite shift_pos_correct.
    change (Z.pow_pos 2 x) with (2 ^ Z.pos x). lia.
  - destruct (Z.pos (digits2_pos p) + e - prec - e) as [| x | x] eqn:Hx; try lia;
      f_equal; lia.
Qed.

(** The sign only labels the result of a rounding. *)
Lemma binary_round_opp (p : positive) (e : Z) :
  binary_round prec emax true p e = SFopp (binary_round prec emax false p e).
Proof.
  unfold binary_round. destruct (shl_align p e _) as [mz ez].
  unfold binary_round_aux.
  destruct (shr_fexp prec emax (Z.pos mz) ez loc_Exact) as [mrs' e'].
  destruct (shr_fexp prec emax _ e' loc_Exact) as [mrs'' e''].
  destruct (shr_m mrs''); [reflexivity | | reflexivity].
  destruct (e'' <=? emax - prec); reflexivity.
Qed.

Lemma pack_cases (a : Z * Z) :
  pack a = S754_finite false (Z.to_pos (fst a)) (snd a) \/ pack a = S754_infinity false.
Proof. unfold pack. destruct (snd a <=? emax - prec); [left | right]; reflexivity. Qed.

Lemma one_spec : Prim2SF 1 = S754_finite false 4503599627370496 (-52).
Proof. reflexivity. Qed.

(** [pack a + 1.0] for a normal [a] of at least 1.0 is at least 2.0. *)
Lemma plus_one_pack (a : Z * Z) :
  normal a -> 1 - prec <= snd a <= emax - prec ->
  exists r, SFadd prec emax (pack a) (Prim2SF 1) = pack r
            /\ normal r /\ 2 - prec <= snd r.
Proof.
  intros Ha He. rewrite one_spec.
  assert (Hp : prec = 53) by reflexivity.
  assert (Hemin : emin = -1074) by reflexivity.
  unfold normal in Ha.
  assert (Hlo : 2 ^ (prec - 1) = 4503599627370496) by reflexivity.
  unfold pack at 1. destruct (Z.leb_spec (snd a) (emax - prec)); [| lia].
  cbn [SFadd cond_Zopp]. rewrite Z.min_r by lia.
  rewrite !shl_align_spec by lia. rewrite Z2Pos.id by lia.
  change (-52 - -52) with 0. rewrite Z.pow_0_r, Z.mul_1_r.
  set (S := fst a * 2 ^ (snd a - -52) + 4503599627370496).
  assert (Hpow : 1 <= 2 ^ (snd a - -52)).
  { pose proof (Z.pow_pos_nonneg 2 (snd a - -52)). lia. }
  assert (HS : 2 ^ 53 <= S).
  { change (2 ^ 53) with (4503599627370496 + 4503599627370496). unfold S. nia. }
  assert (HSpos : 0 < S) by (change (2 ^ 53) with 9007199254740992 in HS; lia).
  destruct (Zdigits2_bounds S HSpos) as (_ & _ & Hu).
  assert (Hdig : 53 < Zdigits2 S).
  { apply pow2_lt_inv; try lia. destruct (Zdigits2_bounds S HSpos); lia. }
  rewrite binary_normalize_round by lia.
  assert (Hal : aligned S = (S, 0)).
  { unfold aligned. cbv zeta. destruct (Z.ltb_spec (Zdigits2 S) prec); [lia | reflexivity]. }
  rewrite Hal. cbn [fst snd]. rewrite Z.add_0_r.
  exists (round_pair S (-52)). split; [reflexivity |].
  split; [apply round_pair_normal; lia |].
  assert (Hle : pair_le (round_pair (2 ^ 53) (-52)) (round_pair S (-52))).
  { apply round_pair_mono; try lia; try reflexivity.
    - change (Zdigits2 (2 ^ 53)) with 54. lia.
    - unfold dyadic_le. rewrite Z.min_id, Z.sub_diag, Z.pow_0_r. lia. }
  change (round_pair (2 ^ 53) (-52)) with (4503599627370496, -51) in Hle.
  unfold pair_le in Hle. cbn [fst snd] in Hle. lia.
Qed.

Lemma float_of_int_exn (k : Z) (e : exn) :
  float_of_int k = Raise e -> e = OverflowError.
Proof.
  unfold float_of_int.
  destruct (binary_normalize prec emax k 0 false); intros H;
    try discriminate H. injection H as <-. reflexivity.
Qed.

Lemma fz_spec (k : Z) :
  0 < k -> Prim2SF (fz k) = pack (conv k).
Proof.
  intros Hk. unfold fz. rewrite binary_normalize_conv by assumption.
  apply Prim2SF_SF2Prim. apply valid_pack; [apply conv_normal, Hk |].
  pose proof (conv_exponent k Hk).
  assert (Hp : prec = 53) by reflexivity.
  assert (Hemin : emin = -1074) by reflexivity. lia.
Qed.

(** For a positive integer the logarithm's argument is at least 2.0:
    neither test of [step_length] fires. *)
Lemma step_length_positive (math : libm) (nxt : Z) :
  0 < nxt ->
  step_length math nxt
  = (f <- float_of_int nxt ;; Return (1 / log math (f + 1))%float).
Proof.
  intros Hk. unfold step_length. rewrite float_of_int_pos by assumption.
  destruct (Z.leb_spec (snd (conv nxt)) (emax - prec)) as [Hfit |]; [| reflexivity].
  cbn [bind].
  destruct (plus_one_pack (conv nxt) (conv_normal nxt Hk)
              (conj (conv_exponent nxt Hk) Hfit)) as (r & Hr & Hn & He).
  assert (Hv : Prim2SF (fz nxt + 1) = pack r).
  { rewrite add_spec, fz_spec by assumption. exact Hr. }
  assert (Hp : prec = 53) by reflexivity.
  rewrite leb_spec, eqb_spec, Hv, one_spec.
  change (Prim2SF 0) with (S754_zero false).
  destruct (pack_cases r) as [-> | ->]; [| reflexivity].
  unfold SFleb, SFeqb. cbn [SFcompare].
  assert (Hgt : (snd r ?= -52) = Gt) by (apply Z.compare_gt_iff; lia).
  rewrite Hgt. reflexivity.
Qed.

(** [float(n)] for a negative integer. *)
Lemma float_of_int_neg (k : Z) :
  0 < k ->
  float_of_int (- k)
  = if snd (conv k) <=? emax - prec
    then Return (SF2Prim (S754_finite true (Z.to_pos (fst (conv k))) (snd (conv k))))
    else Raise OverflowError.
Proof.
  intros Hk. unfold float_of_int.
  pose proof (binary_normalize_conv k Hk) as Hc.
  destruct k as [| p | p]; try lia.
  cbn [Z.opp binary_normalize] in *. rewrite binary_round_opp, Hc.
  unfold pack. destruct (snd (conv (Z.pos p)) <=? emax - prec); reflexivity.
Qed.

Lemma step_length_negative (math : libm) (nxt : Z) :
  nxt < 0 ->
  step_length math nxt
  = (_ <- float_of_int nxt ;; Raise (ValueError "math domain error")).
Proof.
  intros Hneg. set (k := - nxt). assert (Hk : 0 < k) by (unfold k; lia).
  replace nxt with (- k) by (unfold k; lia).
  unfold step_length. rewrite float_of_int_neg by assumption.
  destruct (Z.leb_spec (snd (conv k)) (emax - prec)) as [Hfit |]; [| reflexivity].
  cbn [bind].
  pose proof (conv_normal k Hk) as Hn. pose proof (conv_exponent k Hk) as He.
  assert (Hp : prec = 53) by reflexivity.
  assert (Hemin : emin = -1074) by reflexivity.
  assert (Hlo : 2 ^ (prec - 1) = 4503599627370496) by reflexivity.
  unfold normal in Hn.
  set (m := fst (conv k)) in *. set (e := snd (conv k)) in *.
  assert (Hvalid : valid_binary (S754_finite true (Z.to_pos m) e) = true).
  { pose proof (valid_pack (conv k) (conv_normal k Hk) ltac:(fold e; lia)) as Hv.
    unfold pack in Hv. fold m e in Hv.
    destruct (Z.leb_spec e (emax - prec)); [exact Hv | lia]. }
  assert (Hle : (SF2Prim (S754_finite true (Z.to_pos m) e) + 1 <=? 0)%float = true).
  { rewrite leb_spec, add_spec, Prim2SF_SF2Prim, one_spec by exact Hvalid.
    change (Prim2SF 0) with (S754_zero false).
    cbn [SF64add SFadd cond_Zopp]. unfold SF64add. cbn [SFadd cond_Zopp].
    rewrite Z.min_r by lia.
    rewrite !shl_align_spec by lia. rewrite Z2Pos.id by lia.
    change (-52 - -52) with 0. rewrite Z.pow_0_r, Z.mul_1_r.
    assert (Hpow : 1 <= 2 ^ (e - -52)).
    { pose proof (Z.pow_pos_nonneg 2 (e - -52)). lia. }
    set (S := - (m * 2 ^ (e - -52)) + 4503599627370496).
    assert (HS : S <= 0) by (unfold S; nia).
    destruct S as [| q | q] eqn:HSq; [reflexivity | lia |].
    cbn [binary_normalize]. rewrite binary_round_opp.
    change (binary_round prec emax false q (-52))
      with (binary_normalize prec emax (Z.pos q) (-52) false).
    rewrite binary_normalize_round;
      [| lia | destruct (Zdigits2_bounds (Z.pos q) ltac:(lia)); lia].
    destruct (pack_cases (round_pair (fst (aligned (Z.pos q)))
                            (-52 + snd (aligned (Z.pos q))))) as [-> | ->];
      reflexivity. }
  rewrite Hle. reflexivity.
Qed.

Lemma step_length_zero (math : libm) :
  step_length math 0 = Raise ZeroDivisionError.
Proof. reflexivity. Qed.

(** ** Starts that are not positive *)

Lemma conv_fits (k : Z) : 0 < k < 2 ^ 1023 -> snd (conv k) <= emax - prec.
Proof.
  intros [Hpos Hu].
  destruct (aligned_spec k Hpos) as (_ & _ & Hsum & _).
  destruct (Zdigits2_bounds k Hpos) as (Hd & Hl & _).
  pose proof (round_pair_exponent (fst (aligned k)) (snd (aligned k))) as He.
  fold (conv k) in He.
  assert (Zdigits2 k - 1 < 1023) by (apply pow2_lt_inv; lia).
  assert (Hp : prec = 53) by reflexivity.
  assert (Hemax : emax = 1024) by reflexivity.
  lia.
Qed.

(** What [step_length] raises on an integer that is not positive. *)
Lemma step_length_nonpositive (math : libm) (m : Z) :
  - 2 ^ 1023 < m <= 0 ->
  step_length math m
  = Raise (if m =? 0 then ZeroDivisionError
           else ValueError "math domain error").
Proof.
  intros [Hl Hu]. destruct (Z.eqb_spec m 0) as [-> | Hne]; [reflexivity |].
  rewrite step_length_negative by lia.
  replace m with (- - m) by lia. rewrite float_of_int_neg by lia.
  destruct (Z.leb_spec (snd (conv (- m))) (emax - prec)) as [| Hgt];
    [reflexivity |].
  pose proof (conv_fits (- m) ltac:(lia)). lia.
Qed.

(** An iteration that fails in [step_length] fails the whole path, and it
    is the first one when the start is not 1. *)
Lemma first_iteration_fails (math : libm) (next_n : Z -> string -> result Z)
    (left right init_h z_step : float) (scheme : string) (fuel : nat)
    (n m : Z) (e : exn) :
  n <> 1 -> next_n n scheme = Return m -> step_length math m = Raise e ->
  turtle_path math next_n left right init_h z_step scheme (S fuel) n
  = Failed e.
Proof.
  intros Hn Hnext Hstep. unfold turtle_path.
  cbn [while_loop start_state t_n].
  destruct (Z.eqb_spec n 1); [contradiction |].
  unfold iteration. cbn [t_n start_state]. rewrite Hnext. cbn [bind].
  rewrite Hstep. reflexivity.
Qed.

(** X5: a start that is not positive never gets past the first iteration
    of [collatz_path_3d], in [src/collatz.py] and in [src/collatz_dash.py]:
    its successor is not positive either, so [math.log(nxt + 1.0)] raises
    [ValueError], or the division by it raises [ZeroDivisionError] when the
    successor is 0 (start 0, and start -1 under the ternary rule of
    [src/collatz.py]). *)
Theorem nonpositive_start_raises (math : libm) (fuel : nat) (n : Z)
    (left_deg right_deg z_step : float) :
  - 2 ^ 1021 < n <= 0 ->
  let domain := ValueError "math domain error" in
  Collatz.collatz_path_3d math (S fuel) n "binary"
  = Failed (if n =? 0 then ZeroDivisionError else domain)
  /\ Collatz.collatz_path_3d math (S fuel) n "ternary"
     = Failed (if (n =? 0) || (n =? -1) then ZeroDivisionError else domain)
  /\ Dash.collatz_path_3d math (S fuel) n left_deg right_deg z_step "binary"
     = Failed (if n =? 0 then ZeroDivisionError else domain)
  /\ Dash.collatz_path_3d math (S fuel) n left_deg right_deg z_step "ternary"
     = Failed (if n =? 0 then ZeroDivisionError else domain).
Proof.
  intros Hn domain.
  assert (Hfail : forall next_n left right init_h zs scheme m,
            next_n n scheme = Return m -> - 2 ^ 1023 < m <= 0 ->
            turtle_path math next_n left right init_h zs scheme (S fuel) n
            = Failed (if m =? 0 then ZeroDivisionError else domain)).
  { intros next_n left right init_h zs scheme m Hnext Hm.
    apply (first_iteration_fails _ _ _ _ _ _ _ _ n m); [lia | exact Hnext |].
    apply step_length_nonpositive, Hm. }
  assert (H1023 : 2 ^ 1023 = 4 * 2 ^ 1021) by reflexivity.
  assert (H1021 : 0 < 2 ^ 1021) by reflexivity.
  revert Hn Hfail H1023 H1021. generalize (2 ^ 1023) (2 ^ 1021).
  intros B b Hn Hfail H1023 H1021.
  assert (Hbin : exists m, (if n mod 2 =? 0 then n / 2 else 3 * n + 1) = m
            /\ - B < m <= 0 /\ (m =? 0) = (n =? 0)).
  { eexists. split; [reflexivity |].
    destruct (Z.eqb_spec (n mod 2) 0);
      (split; [Z.div_mod_to_equations; lia |]).
    - destruct (Z.eqb_spec (n / 2) 0), (Z.eqb_spec n 0); try reflexivity;
        Z.div_mod_to_equations; lia.
    - destruct (Z.eqb_spec (3 * n + 1) 0), (Z.eqb_spec n 0); try reflexivity;
        Z.div_mod_to_equations; lia. }
  assert (Hter : forall last, last = 1 \/ last = 2 ->
            exists m, (if n mod 3 =? 0 then n / 3
                       else if n mod 3 =? 1 then (4 * n + 1) / 3
                       else (2 * n + last) / 3) = m
            /\ - B < m <= 0
            /\ (m =? 0) = (n =? 0) || ((n =? -1) && (last =? 2))).
  { intros last Hlast. eexists. split; [reflexivity |].
    destruct (Z.eqb_spec (n mod 3) 0); [| destruct (Z.eqb_spec (n mod 3) 1)];
      (split; [Z.div_mod_to_equations; lia |]).
    - destruct (Z.eqb_spec (n / 3) 0), (Z.eqb_spec n 0), (Z.eqb_spec n (-1));
        cbn; try reflexivity; Z.div_mod_to_equations; lia.
    - destruct (Z.eqb_spec ((4 * n + 1) / 3) 0), (Z.eqb_spec n 0),
        (Z.eqb_spec n (-1)); cbn; try reflexivity; Z.div_mod_to_equations; lia.
    - destruct (Z.eqb_spec ((2 * n + last) / 3) 0), (Z.eqb_spec n 0),
        (Z.eqb_spec n (-1)), (Z.eqb_spec last 2); cbn; try reflexivity;
        Z.div_mod_to_equations; lia. }
  destruct Hbin as (mb & Hmb & Hbb & Hzb).
  destruct (Hter 2 ltac:(lia)) as (m2 & Hm2 & Hb2 & Hz2).
  destruct (Hter 1 ltac:(lia)) as (m1 & Hm1 & Hb1 & Hz1).
  cbn [Z.eqb Pos.eqb andb] in Hz1, Hz2.
  rewrite andb_true_r in Hz2. rewrite andb_false_r, orb_false_r in Hz1.
  unfold Collatz.collatz_path_3d, Dash.collatz_path_3d.
  split; [| split; [| split]].
  - rewrite <- Hzb. apply Hfail; [| exact Hbb]. unfold Collatz.next_n.
    cbn [String.eqb Ascii.eqb Bool.eqb]. rewrite Hmb. reflexivity.
  - rewrite <- Hz2. apply Hfail; [| exact Hb2]. unfold Collatz.next_n.
    cbn [String.eqb Ascii.eqb Bool.eqb]. cbv zeta.
    rewrite <- Hm2. destruct (n mod 3 =? 0), (n mod 3 =? 1); reflexivity.
  - rewrite <- Hzb. apply Hfail; [| exact Hbb]. unfold Dash.next_n.
    cbn [String.eqb Ascii.eqb Bool.eqb]. rewrite Hmb. reflexivity.
  - rewrite <- Hz1. apply Hfail; [| exact Hb1]. unfold Dash.next_n.
    cbn [String.eqb Ascii.eqb Bool.eqb]. cbv zeta.
    rewrite <- Hm1. destruct (n mod 3 =? 0), (n mod 3 =? 1); reflexivity.
Qed.

Lemma nonpositive_start_raises_witness :
  - 2 ^ 1021 < -1 <= 0
  /\ forall math,
       let domain := ValueError "math domain error" in
       Collatz.collatz_path_3d math 1 (-1) "binary" = Failed domain
       /\ Collatz.collatz_path_3d math 1 (-1) "ternary" = Failed ZeroDivisionError
       /\ Dash.collatz_path_3d math 1 (-1) 8 16 0x1.999999999999ap-3 "binary"
          = Failed domain
       /\ Dash.collatz_path_3d math 1 (-1) 8 16 0x1.999999999999ap-3 "ternary"
          = Failed domain.
Proof.
  assert (H : - 2 ^ 1021 < -1 <= 0) by (split; reflexivity || discriminate).
  split; [exact H |]. intros math.
  exact (nonpositive_start_raises math 0 (-1) 8 16 0x1.999999999999ap-3 H).
Defined.

(** ** Positive starts *)

Section PositiveStarts.

Variable math : libm.
Variable next_n : Z -> string -> result Z.
Variables left right init_h z_step : float.
Variable scheme : string.

Let body := iteration math next_n left right z_step scheme.
Let run := while_loop math next_n left right z_step scheme.

(** An iteration whose successor is positive raises nothing but the
    [OverflowError] of a conversion to [float]. *)
Lemma iteration_positive (st : turtle) (m : Z) :
  next_n (t_n st) scheme = Return m -> 1 <= m -> 0 <= t_step_count st ->
  (exists st', body st = Return st' /\ t_n st' = m
               /\ t_step_count st' = t_step_count st + 1)
  \/ body st = Raise OverflowError.
Proof.
  intros Hnext Hm Hc. unfold body, iteration. rewrite Hnext. cbn [bind].
  rewrite step_length_positive by lia.
  destruct (float_of_int m) as [f | e] eqn:Hf; cbn [bind].
  - destruct (float_of_int (t_step_count st + 1)) as [k | e] eqn:Hk; cbn [bind].
    + left. eexists. split; [reflexivity |]. split; reflexivity.
    + right. rewrite (float_of_int_exn _ _ Hk). reflexivity.
  - right. rewrite (float_of_int_exn _ _ Hf). reflexivity.
Qed.

(** With the successor and the counter below 2^1023 it raises nothing. *)
Lemma iteration_fits (st : turtle) (m : Z) :
  next_n (t_n st) scheme = Return m -> 1 <= m < 2 ^ 1023 ->
  0 <= t_step_count st -> t_step_count st + 1 < 2 ^ 1023 ->
  exists st', body st = Return st' /\ t_n st' = m
              /\ t_step_count st' = t_step_count st + 1.
Proof.
  intros Hnext Hm Hc Hb. unfold body, iteration. rewrite Hnext. cbn [bind].
  rewrite step_length_positive by lia.
  rewrite (float_of_int_small m) by lia. cbn [bind].
  rewrite (float_of_int_small (t_step_count st + 1)) by lia. cbn [bind].
  eexists. split; [reflexivity |]. split; reflexivity.
Qed.

Hypothesis next_positive :
  forall n, 1 <= n -> exists m, next_n n scheme = Return m /\ 1 <= m.

Lemma while_loop_positive (fuel : nat) (st : turtle) (e : exn) :
  1 <= t_n st -> 0 <= t_step_count st ->
  run fuel st = Failed e -> e = OverflowError.
Proof.
  unfold run. revert st. induction fuel as [| fuel IH]; intros st Hn Hc H;
    cbn [while_loop] in H; destruct (t_n st =? 1); try discriminate H.
  destruct (next_positive _ Hn) as (m & Hnext & Hm).
  fold body in H.
  destruct (iteration_positive st m Hnext Hm Hc)
    as [(st' & Hit & Hn' & Hc') | Hit]; rewrite Hit in H.
  - apply (IH st'); [lia | lia | exact H].
  - injection H as <-. reflexivity.
Qed.

Lemma turtle_path_positive (fuel : nat) (n : Z) (e : exn) :
  1 <= n ->
  turtle_path math next_n left right init_h z_step scheme fuel n = Failed e ->
  e = OverflowError.
Proof.
  intros Hn H. unfold turtle_path in H. fold run in H.
  destruct (run fuel (start_state init_h n)) as [st | e' | st] eqn:Hrun;
    try discriminate H.
  injection H as <-.
  apply (while_loop_positive fuel (start_state init_h n)); [exact Hn | | exact Hrun].
  cbn. lia.
Qed.

(** The orbit of a positive value is positive. *)
Lemma orbit_positive (fuel : nat) (n : Z) :
  1 <= n -> Forall (fun v => 1 <= v) (orbit next_n scheme fuel n).
Proof.
  revert n. induction fuel as [| fuel IH]; intros n Hn; cbn [orbit];
    constructor; try exact Hn; destruct (n =? 1); try constructor.
  destruct (next_positive n Hn) as (m & -> & Hm). apply IH, Hm.
Qed.

(** Where the sequence reaches 1 below 2^1023, the loop returns, having
    gone through the sequence. *)
Lemma while_loop_complete (fuel : nat) (st : turtle) (k : nat) :
  1 <= t_n st -> 0 <= t_step_count st ->
  stopping_time next_n scheme fuel (t_n st) = Some k ->
  Forall (fun v => v < 2 ^ 1023) (orbit next_n scheme fuel (t_n st)) ->
  t_step_count st + Z.of_nat k < 2 ^ 1023 ->
  exists st',
    run fuel st = Done st'
    /\ visited math next_n left right z_step scheme fuel st
       = orbit next_n scheme fuel (t_n st).
Proof.
  unfold run. revert st k.
  induction fuel as [| fuel IH]; intros st k Hn Hc Hk Hb Hfit;
    cbn [while_loop stopping_time visited orbit] in *;
    destruct (t_n st =? 1) eqn:H1; try discriminate Hk.
  - exists st. split; reflexivity.
  - exists st. split; reflexivity.
  - destruct (next_positive _ Hn) as (m & Hnext & Hm). rewrite Hnext in *.
    destruct (stopping_time next_n scheme fuel m) as [k' |] eqn:Hk';
      [| discriminate Hk].
    injection Hk as <-.
    apply Forall_inv_tail in Hb.
    assert (Hmb : m < 2 ^ 1023).
    { destruct fuel; cbn [orbit] in Hb; apply Forall_inv in Hb; exact Hb. }
    destruct (iteration_fits st m Hnext ltac:(lia) Hc ltac:(lia))
      as (st' & Hit & Hn' & Hc').
    fold body. rewrite Hit. subst m.
    destruct (IH st' k') as (st'' & Hrun & Hvis); try assumption; try lia.
    exists st''. split; [exact Hrun |]. f_equal. exact Hvis.
Qed.

End PositiveStarts.

Lemma stopping_time_le (next_n : Z -> string -> result Z) (scheme : string)
    (fuel : nat) (n : Z) (k : nat) :
  stopping_time next_n scheme fuel n = Some k -> (k <= fuel)%nat.
Proof.
  revert n k. induction fuel as [| fuel IH]; intros n k H;
    cbn [stopping_time] in H; destruct (n =? 1); try discriminate H;
    try (injection H as <-; lia).
  destruct (next_n n scheme) as [m |]; [| discriminate H].
  destruct (stopping_time next_n scheme fuel m) as [k' |] eqn:Hk';
    [| discriminate H].
  injection H as <-. apply IH in Hk'. lia.
Qed.

(** Both rules of [src/collatz.py] and of [src/collatz_dash.py] keep a
    positive value positive. *)
Lemma collatz_next_positive (scheme : string) :
  scheme = "binary" \/ scheme = "ternary" ->
  forall n, 1 <= n -> exists m, Collatz.next_n n scheme = Return m /\ 1 <= m.
Proof.
  intros [-> | ->] n Hn; unfold Collatz.next_n;
    cbn [String.eqb Ascii.eqb Bool.eqb]; cbv zeta;
    repeat match goal with
           | |- context [Z.eqb ?a ?b] => destruct (Z.eqb_spec a b)
           end;
    (eexists; split; [reflexivity | Z.div_mod_to_equations; lia]).
Qed.

Lemma dash_next_positive (scheme : string) :
  scheme = "binary" \/ scheme = "ternary" ->
  forall n, 1 <= n -> exists m, Dash.next_n n scheme = Return m /\ 1 <= m.
Proof.
  intros [-> | ->] n Hn; unfold Dash.next_n;
    cbn [String.eqb Ascii.eqb Bool.eqb]; cbv zeta;
    repeat match goal with
           | |- context [Z.eqb ?a ?b] => destruct (Z.eqb_spec a b)
           end;
    (eexists; split; [reflexivity | Z.div_mod_to_equations; lia]).
Qed.

Section Complete.

Variable math : libm.
Variable next_n : Z -> string -> result Z.
Variables left right init_h z_step : float.
Variable scheme : string.
Hypothesis next_positive :
  forall n, 1 <= n -> exists m, next_n n scheme = Return m /\ 1 <= m.

Lemma turtle_path_complete (fuel : nat) (n : Z) (k : nat) :
  1 <= n -> Z.of_nat fuel < 2 ^ 1023 ->
  stopping_time next_n scheme fuel n = Some k ->
  Forall (fun v => v < 2 ^ 1023) (orbit next_n scheme fuel n) ->
  exists xs ys zs,
    turtle_path math next_n left right init_h z_step scheme fuel n
    = Done (xs, ys, zs)
    /\ List.length xs = S k /\ List.length ys = S k /\ List.length zs = S k
    /\ visited math next_n left right z_step scheme fuel (start_state init_h n)
       = orbit next_n scheme fuel n.
Proof.
  intros Hn Hfuel Hk Hb.
  pose proof (stopping_time_le _ _ _ _ _ Hk) as Hle.
  destruct (while_loop_complete math next_n left right z_step scheme
              next_positive fuel (start_state init_h n) k)
    as (st & Hrun & Hvis); try assumption; try (cbn; lia).
  assert (Hpath : turtle_path math next_n left right init_h z_step scheme fuel n
                  = Done (t_xs st, t_ys st, t_zs st)).
  { unfold turtle_path. rewrite Hrun. reflexivity. }
  destruct (turtle_path_done _ _ _ _ _ _ _ _ _ _ Hpath)
    as (st' & k' & Hrun' & _ & _ & Hinv & Hk' & Hcount).
  rewrite Hrun in Hrun'. injection Hrun' as <-.
  rewrite Hk in Hk'. injection Hk' as <-.
  destruct Hinv as (_ & _ & Hzs & Hxs & Hys & _).
  rewrite Hcount, Nat2Z.id in *.
  exists (t_xs st), (t_ys st), (t_zs st).
  split; [exact Hpath |]. split; [exact Hxs |]. split; [exact Hys |].
  split; [rewrite Hzs; apply heights_length | exact Hvis].
Qed.

End Complete.





(** ** The callback of [src/collatz_dash.py] *)



(** ** [plot_shrub] of [src/collatz.py] *)

Lemma ternary_91_never_stops (fuel : nat) :
  stopping_time Collatz.next_n "ternary" fuel 91 = None.
Proof.
  revert fuel.
  apply (never_stops_before _ _ 91 121); [lia | reflexivity |].
  apply (never_stops_before _ _ 121 161); [lia | reflexivity |].
  apply (never_stops_before _ _ 161 108); [lia | reflexivity |].
  apply (never_stops_before _ _ 108 36); [lia | reflexivity |].
  apply (never_stops_before _ _ 36 12); [lia | reflexivity |].
  apply (never_stops_before _ _ 12 4); [lia | reflexivity |].
  intros f. apply ternary_4_5_cycle.
Qed.

(** The loop draws every line only if every trajectory returns. *)
Lemma plot_lines_done (math : libm) (fuel : nat) (scheme : string)
    (n_samples : Z) (starts : list Z) (lines : list (path * float)) :
  Collatz.plot_lines math fuel scheme n_samples starts = Done lines ->
  forall n, In n starts ->
    exists p, Collatz.collatz_path_3d math fuel n scheme = Done p.
Proof.
  revert lines. induction starts as [| s rest IH]; intros lines H n Hn;
    [destruct Hn |].
  cbn [Collatz.plot_lines] in H.
  destruct (Collatz.collatz_path_3d math fuel s scheme) as [p | |] eqn:Hp;
    try discriminate H.
  destruct (Collatz.linewidth n_samples); [| discriminate H].
  destruct (Collatz.plot_lines math fuel scheme n_samples rest) as [ls | |];
    try discriminate H.
  destruct Hn as [<- | Hn]; [exists p; exact Hp | apply (IH ls eq_refl n Hn)].
Qed.

(** The starting values hold the reference value, whatever was drawn. *)
Lemma plot_shrub_starts_hero (choose : list Z -> nat -> list Z)
    (n_samples max_start : Z) (scheme : string) (starts : list Z) :
  Collatz.plot_shrub_starts choose n_samples max_start scheme = Return starts ->
  In (Collatz.hero scheme) starts.
Proof.
  unfold Collatz.plot_shrub_starts. intros H.
  destruct (random_sample choose (range 2 max_start) n_samples) as [drawn |];
    [| discriminate H].
  cbn [bind] in H.
  destruct (mem (Collatz.hero scheme) drawn) eqn:Hmem; cbn [negb] in H;
    injection H as <-.
  - apply mem_In, Hmem.
  - apply in_or_app. right. left. reflexivity.
Qed.

(** X9: under the ternary scheme [plot_shrub] of [src/collatz.py] never
    returns: the reference value 91 is always among the starting values,
    and its trajectory never ends (it falls into the cycle 4, 5), so the
    loop of lines 122-124 is never left, whatever the sample. *)
Theorem plot_shrub_ternary_never_returns (choose : list Z -> nat -> list Z)
    (colours : list Z -> Z -> result unit) (math : libm) (fuel : nat)
    (n_samples max_start : Z) (lines : list (path * float)) :
  Collatz.plot_shrub choose colours math fuel n_samples max_start "ternary"
  <> Done lines.
Proof.
  unfold Collatz.plot_shrub. intros H.
  destruct (Collatz.plot_shrub_starts choose n_samples max_start "ternary")
    as [starts |] eqn:Hs; [| discriminate H].
  cbn [bind] in H.
  destruct (colours starts max_start); [| discriminate H]. cbn [bind] in H.
  apply plot_shrub_starts_hero in Hs.
  destruct (plot_lines_done _ _ _ _ _ _ H _ Hs) as [p Hp].
  unfold Collatz.collatz_path_3d in Hp.
  destruct (turtle_path_done _ _ _ _ _ _ _ _ _ _ Hp)
    as (st & k & _ & _ & _ & _ & Hk & _).
  change (Collatz.hero "ternary") with 91 in Hk.
  rewrite ternary_91_never_stops in Hk. discriminate Hk.
Qed.

Lemma turtle_path_more_fuel (math : libm) (next_n : Z -> string -> result Z)
    (left right init_h z_step : float) (scheme : string)
    (fuel extra : nat) (n : Z) (p : path) :
  turtle_path math next_n left right init_h z_step scheme fuel n = Done p ->
  turtle_path math next_n left right init_h z_step scheme (fuel + extra) n
  = Done p.
Proof.
  unfold turtle_path. intros H.
  destruct (while_loop math next_n left right z_step scheme fuel
              (start_state init_h n)) as [st | |] eqn:Hrun; try discriminate H.
  rewrite (while_loop_more_fuel _ _ _ _ _ _ _ extra _ _ Hrun). exact H.
Qed.

(** The binary reference value reaches 1 in 524 steps, far below 2^1023. *)
Lemma binary_hero_returns (math : libm) (extra : nat) :
  exists p,
    Collatz.collatz_path_3d math (524 + extra) 837799 "binary" = Done p.
Proof.
  destruct (turtle_path_complete math Collatz.next_n Collatz._left
              Collatz._right Collatz._init_h Collatz.Z_STEP "binary"
              (collatz_next_positive "binary" (or_introl eq_refl))
              524 837799 524)
    as (xs & ys & zs & Hp & _).
  - discriminate.
  - reflexivity.
  - vm_compute. reflexivity.
  - apply Forall_forall. intros v Hv. apply Z.ltb_lt. revert v Hv.
    apply forallb_forall. vm_compute. reflexivity.
  - exists (xs, ys, zs). apply turtle_path_more_fuel, Hp.
Qed.



(** ** The path of [src/old2.py] *)

Lemma old2_next_positive (mode : string) :
  mode = "binary" \/ mode = "ternary" ->
  forall n, 1 <= n -> exists m, Old2.next_n n mode = Return m /\ 1 <= m.
Proof.
  intros [-> | ->] n Hn; unfold Old2.next_n;
    cbn [String.eqb Ascii.eqb Bool.eqb]; cbv zeta;
    repeat match goal with
           | |- context [Z.eqb ?a ?b] => destruct (Z.eqb_spec a b)
           end;
    (eexists; split; [reflexivity | Z.div_mod_to_equations; lia]).
Qed.

Lemma hd_error_app {A : Type} (l : list A) (x a : A) :
  hd_error l = Some a -> hd_error (l ++ [x]) = Some a.
Proof. destruct l; [discriminate | intros H; exact H]. Qed.

(** The loop of [src/old2.py] from any state whose value is positive and
    whose sequence stays below 2^1023: it returns after as many iterations
    as the sequence takes to reach 1, and is still iterating when the
    sequence has not reached 1. *)
Lemma old2_while_loop (math : libm) (mode : string) (fuel : nat)
    (st : Old2.walk) :
  mode = "binary" \/ mode = "ternary" -> 1 <= Old2.w_n st ->
  Forall (fun v => v < 2 ^ 1023) (orbit Old2.next_n mode fuel (Old2.w_n st)) ->
  match stopping_time Old2.next_n mode fuel (Old2.w_n st) with
  | Some k =>
      exists st',
        Old2.while_loop math mode fuel st = Done st'
        /\ List.length (Old2.w_xs st') = (List.length (Old2.w_xs st) + k)%nat
        /\ List.length (Old2.w_ys st') = (List.length (Old2.w_ys st) + k)%nat
        /\ List.length (Old2.w_zs st') = (List.length (Old2.w_zs st) + k)%nat
        /\ (forall a, hd_error (Old2.w_xs st) = Some a ->
                      hd_error (Old2.w_xs st') = Some a)
        /\ (forall a, hd_error (Old2.w_ys st) = Some a ->
                      hd_error (Old2.w_ys st') = Some a)
        /\ (forall a, hd_error (Old2.w_zs st) = Some a ->
                      hd_error (Old2.w_zs st') = Some a)
  | None => exists st', Old2.while_loop math mode fuel st = Running st'
  end.
Proof.
  intros Hmode. revert st.
  induction fuel as [| fuel IH]; intros st Hn Hb;
    cbn [Old2.while_loop stopping_time orbit] in *;
    destruct (Old2.w_n st =? 1) eqn:H1.
  - exists st. rewrite !Nat.add_0_r. repeat split; auto.
  - exists st. reflexivity.
  - exists st. rewrite !Nat.add_0_r. repeat split; auto.
  - destruct (old2_next_positive mode Hmode _ Hn) as (m & Hnext & Hm).
    rewrite Hnext in *. apply Forall_inv_tail in Hb.
    assert (Hmb : m < 2 ^ 1023).
    { destruct fuel; cbn [orbit] in Hb; apply Forall_inv in Hb; exact Hb. }
    unfold Old2.iteration. rewrite Hnext. cbn [bind].
    rewrite step_length_positive by lia.
    rewrite (float_of_int_small m) by lia. cbn [bind].
    match goal with
    | |- context [Old2.while_loop math mode fuel ?s] => set (st1 := s)
    end.
    specialize (IH st1 Hm Hb). change (Old2.w_n st1) with m in IH.
    destruct (stopping_time Old2.next_n mode fuel m) as [k |]; cbn [option_map].
    + destruct IH as (st' & Hrun & Hx & Hy & Hz & Hhx & Hhy & Hhz).
      exists st'. split; [exact Hrun |].
      unfold st1 in Hx, Hy, Hz, Hhx, Hhy, Hhz.
      cbn [Old2.w_xs Old2.w_ys Old2.w_zs] in Hx, Hy, Hz, Hhx, Hhy, Hhz.
      rewrite length_app in Hx, Hy, Hz. cbn [List.length] in Hx, Hy, Hz.
      split; [lia |]. split; [lia |]. split; [lia |].
      split; [| split]; intros a Ha;
        [apply Hhx | apply Hhy | apply Hhz]; apply hd_error_app, Ha.
    + exact IH.
Qed.

(** X11: [collatz_path_3d] of [src/old2.py], from a positive start whose
    sequence stays below 2^1023, raises nothing: it returns exactly when
    the sequence reaches 1, with one point per value of the sequence and
    the origin first, and is still in its loop as long as the sequence has
    not reached 1. *)
Theorem old2_path_returns_iff_sequence_stops (math : libm) (fuel : nat)
    (n : Z) (mode : string) :
  1 <= n -> mode = "binary" \/ mode = "ternary" ->
  Forall (fun v => v < 2 ^ 1023) (orbit Old2.next_n mode fuel n) ->
  match stopping_time Old2.next_n mode fuel n with
  | Some k =>
      exists xs ys zs,
        Old2.collatz_path_3d math fuel n mode = Done (xs, ys, zs)
        /\ List.length xs = S k /\ List.length ys = S k
        /\ List.length zs = S k
        /\ hd_error xs = Some 0%float /\ hd_error ys = Some 0%float
        /\ hd_error zs = Some 0%float
  | None => exists st, Old2.collatz_path_3d math fuel n mode = Running st
  end.
Proof.
  intros Hn Hmode Hb.
  pose proof (old2_while_loop math mode fuel (Old2.start_walk n) Hmode Hn Hb)
    as H.
  unfold Old2.collatz_path_3d.
  change (Old2.w_n (Old2.start_walk n)) with n in H.
  destruct (stopping_time Old2.next_n mode fuel n) as [k |].
  - destruct H as (st & -> & Hx & Hy & Hz & Hhx & Hhy & Hhz).
    exists (Old2.w_xs st), (Old2.w_ys st), (Old2.w_zs st).
    split; [reflexivity |]. cbn in Hx, Hy, Hz.
    split; [exact Hx |]. split; [exact Hy |]. split; [exact Hz |].
    split; [apply Hhx | split; [apply Hhy | apply Hhz]]; reflexivity.
  - destruct H as (st & ->). exists st. reflexivity.
Qed.

Lemma old2_path_returns_iff_sequence_stops_witness :
  1 <= 27 /\ ("binary" = "binary" \/ "binary" = "ternary")
  /\ stopping_time Old2.next_n "binary" 111 27 = Some 111%nat
  /\ stopping_time Old2.next_n "binary" 110 27 = None
  /\ forall math,
       match stopping_time Old2.next_n "binary" 111 27 with
       | Some k =>
           exists xs ys zs,
             Old2.collatz_path_3d math 111 27 "binary" = Done (xs, ys, zs)
             /\ List.length xs = S k /\ List.length ys = S k
             /\ List.length zs = S k
             /\ hd_error xs = Some 0%float /\ hd_error ys = Some 0%float
             /\ hd_error zs = Some 0%float
       | None =>
           exists st, Old2.collatz_path_3d math 111 27 "binary" = Running st
       end.
Proof.
  assert (H1 : 1 <= 27) by discriminate.
  assert (H4 : Forall (fun v => v < 2 ^ 1023)
                 (orbit Old2.next_n "binary" 111 27)).
  { apply Forall_forall. intros v Hv. apply Z.ltb_lt. revert v Hv.
    apply forallb_forall. vm_compute. reflexivity. }
  split; [exact H1 |]. split; [left; reflexivity |].
  split; [vm_compute; reflexivity |]. split; [vm_compute; reflexivity |].
  intros math.
  exact (old2_path_returns_iff_sequence_stops math 111 27 "binary" H1
           (or_introl eq_refl) H4).
Defined.

(** A path that [src/old2.py] returns is the path of a sequence that
    reached 1. *)
Lemma old2_while_loop_done (math : libm) (mode : string) (fuel : nat)
    (st st' : Old2.walk) :
  Old2.while_loop math mode fuel st = Done st' ->
  exists k, stopping_time Old2.next_n mode fuel (Old2.w_n st) = Some k.
Proof.
  revert st. induction fuel as [| fuel IH]; intros st H;
    cbn [Old2.while_loop stopping_time] in *;
    destruct (Old2.w_n st =? 1); try discriminate H;
    try (exists 0%nat; reflexivity).
  unfold Old2.iteration in H.
  destruct (Old2.next_n (Old2.w_n st) mode) as [m |]; [| discriminate H].
  cbn [bind] in H.
  destruct (step_length math m); [| discriminate H]. cbn [bind] in H.
  apply IH in H. cbn [Old2.w_n] in H. destruct H as [k ->].
  exists (S k). reflexivity.
Qed.

(** Under the ternary rule of [src/old2.py], 4 and 5 send to each other,
    and 31 falls onto them. *)
Lemma old2_ternary_4_5_cycle (fuel : nat) :
  stopping_time Old2.next_n "ternary" fuel 4 = None
  /\ stopping_time Old2.next_n "ternary" fuel 5 = None.
Proof.
  induction fuel as [| fuel [IH4 IH5]]; [split; reflexivity |].
  split; cbn [stopping_time].
  - change (Old2.next_n 4 "ternary") with (Return (A := Z) 5).
    cbn [Z.eqb Pos.eqb]. rewrite IH5. reflexivity.
  - change (Old2.next_n 5 "ternary") with (Return (A := Z) 4).
    cbn [Z.eqb Pos.eqb]. rewrite IH4. reflexivity.
Qed.

Lemma old2_ternary_31_never_stops (fuel : nat) :
  stopping_time Old2.next_n "ternary" fuel 31 = None.
Proof.
  revert fuel.
  apply (never_stops_before _ _ 31 41); [lia | reflexivity |].
  apply (never_stops_before _ _ 41 28); [lia | reflexivity |].
  apply (never_stops_before _ _ 28 37); [lia | reflexivity |].
  apply (never_stops_before _ _ 37 49); [lia | reflexivity |].
  apply (never_stops_before _ _ 49 65); [lia | reflexivity |].
  apply (never_stops_before _ _ 65 44); [lia | reflexivity |].
  apply (never_stops_before _ _ 44 30); [lia | reflexivity |].
  apply (never_stops_before _ _ 30 10); [lia | reflexivity |].
  apply (never_stops_before _ _ 10 13); [lia | reflexivity |].
  apply (never_stops_before _ _ 13 17); [lia | reflexivity |].
  apply (never_stops_before _ _ 17 12); [lia | reflexivity |].
  apply (never_stops_before _ _ 12 4); [lia | reflexivity |].
  intros f. apply old2_ternary_4_5_cycle.
Qed.

(** X12: in ternary mode [plot_shrub] of [src/old2.py] never returns:
    after the sample it draws the path of [celeb], which is 31, and the
    sequence of 31 falls into the cycle 4, 5.  In binary mode [celeb] is
    27, which reaches 1 in 111 steps. *)
Theorem old2_ternary_never_returns (choose : list Z -> nat -> list Z)
    (colours : list Z -> result unit) (math : libm) (fuel : nat)
    (n_samples max_start : Z) :
  Old2.celeb "ternary" = 31
  /\ stopping_time Old2.next_n "ternary" fuel 31 = None
  /\ (forall p, Old2.collatz_path_3d math fuel 31 "ternary" <> Done p)
  /\ (forall lines,
        Old2.plot_shrub choose colours math fuel n_samples max_start "ternary"
        <> Done lines)
  /\ stopping_time Old2.next_n "binary" 111 (Old2.celeb "binary")
     = Some 111%nat.
Proof.
  assert (Hpath : forall p,
            Old2.collatz_path_3d math fuel 31 "ternary" <> Done p).
  { intros p H. unfold Old2.collatz_path_3d in H.
    destruct (Old2.while_loop math "ternary" fuel (Old2.start_walk 31))
      as [st | |] eqn:Hrun; try discriminate H.
    destruct (old2_while_loop_done _ _ _ _ _ Hrun) as [k Hk].
    change (Old2.w_n (Old2.start_walk 31)) with 31 in Hk.
    rewrite old2_ternary_31_never_stops in Hk. discriminate Hk. }
  split; [reflexivity |]. split; [apply old2_ternary_31_never_stops |].
  split; [exact Hpath |]. split; [| vm_compute; reflexivity].
  intros lines H. unfold Old2.plot_shrub in H.
  destruct (starts <- random_sample choose (range 2 max_start) n_samples ;;
            _ <- colours starts ;; Return starts) as [starts |];
    [| discriminate H].
  destruct (Old2.plot_lines math fuel "ternary" starts); try discriminate H.
  change (Old2.celeb "ternary") with 31 in H.
  destruct (Old2.collatz_path_3d math fuel 31 "ternary") as [p | |] eqn:Hp;
    try discriminate H.
  exact (Hpath p eq_refl).
Qed.

(** * The default run *)

Lemma stops_in_step (n : Z) (k : nat) :
  n <> 1 -> n < 2 ^ 1023 ->
  stops_in (if n mod 2 =? 0 then n / 2 else 3 * n + 1) k ->
  stops_in n (S k).
Proof.
  intros Hn Hb [Hk Ho]. unfold stops_in. cbn [stopping_time orbit].
  destruct (Z.eqb_spec n 1); [contradiction |].
  change (Collatz.next_n n "binary")
    with (Return (if n mod 2 =? 0 then n / 2 else 3 * n + 1)).
  cbv beta iota. rewrite Hk. split; [reflexivity |]. constructor; assumption.
Qed.

Lemma wB_small : Uint63.wB < 2 ^ 1023.
Proof. reflexivity. Qed.

Module MachineFacts.
Import Uint63.

Section Drops.

Variable F : Z.
Hypothesis F_nonneg : 0 <= F.

Lemma drops_stops (fuel : nat) (n0 n : Uint63.int) :
  Machine.drops fuel n0 n = true ->
  2 <= Uint63.to_Z n0 -> 1 <= Uint63.to_Z n ->
  (forall m, 1 <= m < Uint63.to_Z n0 ->
     exists k, stops_in m k /\ Z.of_nat k <= F * m) ->
  exists k, stops_in (Uint63.to_Z n) k
            /\ Z.of_nat k <= Z.of_nat fuel + F * (Uint63.to_Z n0 - 1).
Proof.
  intros H H0 Hn IH. revert n H Hn.
  induction fuel as [| fuel IHf]; intros n H Hn; cbn [Machine.drops] in H;
    destruct (PrimInt63.ltb n n0) eqn:Hlt.
  - apply Uint63.ltb_spec in Hlt.
    destruct (IH (Uint63.to_Z n) ltac:(lia)) as (k & Hk & Hb).
    exists k. split; [exact Hk | nia].
  - discriminate H.
  - apply Uint63.ltb_spec in Hlt.
    destruct (IH (Uint63.to_Z n) ltac:(lia)) as (k & Hk & Hb).
    exists k. split; [exact Hk | nia].
  - assert (Hge : Uint63.to_Z n0 <= Uint63.to_Z n).
    { destruct (Z.lt_ge_cases (Uint63.to_Z n) (Uint63.to_Z n0)) as [Hc | Hc];
        [| exact Hc].
      apply Uint63.ltb_spec in Hc. congruence. }
    pose proof (Uint63.to_Z_bounded n) as Hbn.
    pose proof wB_small as HwB.
    assert (HwBv : Uint63.wB = 9223372036854775808) by reflexivity.
    destruct (PrimInt63.eqb (PrimInt63.mod n 2%uint63) 0%uint63) eqn:Heven.
    + apply Uint63.eqb_spec in Heven.
      assert (Hmod : Uint63.to_Z n mod 2 = 0).
      { pose proof (Uint63.mod_spec n 2%uint63) as Hm.
        change (Uint63.to_Z 2%uint63) with 2 in Hm.
        rewrite <- Hm, Heven. reflexivity. }
      destruct (IHf _ H) as (k & Hk & Hb).
      { rewrite Uint63.div_spec. change (Uint63.to_Z 2%uint63) with 2.
        Z.div_mod_to_equations. lia. }
      rewrite Uint63.div_spec in Hk. change (Uint63.to_Z 2%uint63) with 2 in Hk.
      exists (S k). split; [| lia].
      apply stops_in_step; [lia | lia |].
      rewrite Hmod. exact Hk.
    + assert (Hmod : Uint63.to_Z n mod 2 <> 0).
      { intros Hc. pose proof (Uint63.mod_spec n 2%uint63) as Hm.
        change (Uint63.to_Z 2%uint63) with 2 in Hm. rewrite <- Hm in Hc.
        change 0 with (Uint63.to_Z 0%uint63) in Hc. apply Uint63.to_Z_inj in Hc.
        rewrite Hc in Heven. discriminate Heven. }
      destruct (PrimInt63.ltb n 1000000000000000%uint63) eqn:Hsmall;
        [| discriminate H].
      apply Uint63.ltb_spec in Hsmall.
      change (Uint63.to_Z 1000000000000000%uint63) with 1000000000000000 in Hsmall.
      assert (Hnext : Uint63.to_Z (PrimInt63.add (PrimInt63.mul 3%uint63 n) 1%uint63)
                      = 3 * Uint63.to_Z n + 1).
      { rewrite Uint63.add_spec, Uint63.mul_spec.
        change (Uint63.to_Z 3%uint63) with 3. change (Uint63.to_Z 1%uint63) with 1.
        rewrite (Z.mod_small (3 * Uint63.to_Z n)) by lia.
        apply Z.mod_small. lia. }
      destruct (IHf _ H) as (k & Hk & Hb); [lia |].
      rewrite Hnext in Hk.
      exists (S k). split; [| lia].
      apply stops_in_step; [lia | lia |].
      destruct (Z.eqb_spec (Uint63.to_Z n mod 2) 0); [contradiction | exact Hk].
Qed.

End Drops.

Lemma all_drop_spec (fuel count : nat) (n : Uint63.int) (i : nat) :
  Machine.all_drop fuel count n = true -> (i < count)%nat ->
  Uint63.to_Z n + Z.of_nat count <= Uint63.wB ->
  exists m, Uint63.to_Z m = Uint63.to_Z n + Z.of_nat i
            /\ Machine.drops fuel m m = true.
Proof.
  revert n i. induction count as [| count IH]; intros n i H Hi Hb; [lia |].
  cbn [Machine.all_drop] in H. apply andb_prop in H. destruct H as [Hd Hrest].
  destruct i as [| i].
  - exists n. split; [lia | exact Hd].
  - pose proof (Uint63.to_Z_bounded n) as Hbn.
    assert (Hs : Uint63.to_Z (PrimInt63.add n 1%uint63) = Uint63.to_Z n + 1).
    { rewrite Uint63.add_spec. change (Uint63.to_Z 1%uint63) with 1.
      apply Z.mod_small. lia. }
    destruct (IH _ i Hrest ltac:(lia) ltac:(lia)) as (m & Hm & Hdm).
    exists m. split; [lia | exact Hdm].
Qed.

(** Every start below one million reaches 1 under the binary rule. *)
Lemma below_million_checked :
  Machine.all_drop 400 (Z.to_nat 999998) 2%uint63 = true.
Proof. vm_compute. reflexivity. Qed.

Lemma below_million_stops (n : Z) :
  1 <= n < 1000000 -> exists k, stops_in n k /\ Z.of_nat k <= 400 * n.
Proof.
  intros Hn.
  assert (H : forall b : nat, forall n, 1 <= n < 1000000 -> n < Z.of_nat b ->
            exists k, stops_in n k /\ Z.of_nat k <= 400 * n).
  { clear n Hn. induction b as [| b IH]; intros n Hn Hb; [lia |].
    destruct (Z.eq_dec n 1) as [-> | Hne].
    { exists 0%nat. split; [| lia]. split; [reflexivity |].
      repeat constructor. }
    destruct (all_drop_spec 400 (Z.to_nat 999998) 2%uint63 (Z.to_nat (n - 2))
                below_million_checked ltac:(lia))
      as (m & Hm & Hd).
    { change (Uint63.to_Z 2%uint63) with 2.
      assert (HwBv : Uint63.wB = 9223372036854775808) by reflexivity. lia. }
    change (Uint63.to_Z 2%uint63) with 2 in Hm.
    assert (Hmn : Uint63.to_Z m = n) by lia.
    destruct (drops_stops 400 ltac:(lia) 400 m m Hd) as (k & Hk & Hkb).
    - lia.
    - lia.
    - intros v Hv. apply IH; lia.
    - rewrite Hmn in *. exists k. split; [exact Hk | lia]. }
  apply (H (Z.to_nat (n + 1))); lia.
Qed.

End MachineFacts.

(** ** The default range of starting values *)

(** Two rules that agree under a scheme have the same sequences. *)
Lemma stopping_time_ext (f g : Z -> string -> result Z) (scheme : string) :
  (forall n, f n scheme = g n scheme) ->
  forall fuel n, stopping_time f scheme fuel n = stopping_time g scheme fuel n.
Proof.
  intros Hfg. induction fuel as [| fuel IH]; intros n; cbn [stopping_time];
    [reflexivity |].
  rewrite Hfg. destruct (n =? 1); [reflexivity |].
  destruct (g n scheme); [rewrite IH |]; reflexivity.
Qed.

Lemma orbit_ext (f g : Z -> string -> result Z) (scheme : string) :
  (forall n, f n scheme = g n scheme) ->
  forall fuel n, orbit f scheme fuel n = orbit g scheme fuel n.
Proof.
  intros Hfg. induction fuel as [| fuel IH]; intros n; cbn [orbit];
    [reflexivity |].
  rewrite Hfg. destruct (n =? 1); [reflexivity |].
  destruct (g n scheme); [rewrite IH |]; reflexivity.
Qed.

Lemma old2_path_more_fuel (math : libm) (mode : string) (fuel extra : nat)
    (n : Z) (p : path) :
  Old2.collatz_path_3d math fuel n mode = Done p ->
  Old2.collatz_path_3d math (fuel + extra) n mode = Done p.
Proof.
  unfold Old2.collatz_path_3d. generalize (Old2.start_walk n). intros st H.
  assert (Hloop : forall st st',
            Old2.while_loop math mode fuel st = Done st' ->
            Old2.while_loop math mode (fuel + extra) st = Done st').
  { clear. induction fuel as [| fuel IH]; intros st st' H.
    - cbn [Old2.while_loop] in H.
      destruct extra; cbn [Nat.add Old2.while_loop];
        destruct (Old2.w_n st =? 1); congruence.
    - cbn [Nat.add Old2.while_loop] in *.
      destruct (Old2.w_n st =? 1); [exact H |].
      destruct (Old2.iteration math mode st); [apply IH, H | discriminate]. }
  destruct (Old2.while_loop math mode fuel st) as [st' | |] eqn:Hrun;
    try discriminate H.
  rewrite (Hloop _ _ Hrun). exact H.
Qed.

(** More fuel does not change a stopping time. *)
Lemma stopping_time_more_fuel (next_n : Z -> string -> result Z)
    (scheme : string) (fuel extra : nat) (n : Z) (k : nat) :
  stopping_time next_n scheme fuel n = Some k ->
  stopping_time next_n scheme (fuel + extra) n = Some k.
Proof.
  revert n k. induction fuel as [| fuel IH]; intros n k H.
  - cbn [stopping_time] in H.
    destruct extra; cbn [Nat.add stopping_time]; destruct (n =? 1); congruence.
  - cbn [Nat.add stopping_time] in *. destruct (n =? 1); [exact H |].
    destruct (next_n n scheme) as [m |]; [| discriminate H].
    destruct (stopping_time next_n scheme fuel m) as [k' |] eqn:Hk';
      [| discriminate H].
    rewrite (IH _ _ Hk'). exact H.
Qed.

(** The three scripts on a start below one million, binary rule. *)
Lemma stops_in_fuel (n : Z) (k : nat) :
  1 <= n < 1000000 -> Z.of_nat k <= 400 * n -> Z.of_nat k < 2 ^ 1023.
Proof.
  intros Hn Hk. apply (Z.le_lt_trans _ (400 * 1000000)); [lia | reflexivity].
Qed.

Lemma collatz_path_below_million (math : libm) (n : Z) :
  1 <= n < 1000000 ->
  exists k xs ys zs,
    stopping_time Collatz.next_n "binary" k n = Some k
    /\ Collatz.collatz_path_3d math k n "binary" = Done (xs, ys, zs)
    /\ List.length xs = S k /\ List.length ys = S k /\ List.length zs = S k.
Proof.
  intros Hn. destruct (MachineFacts.below_million_stops n Hn) as (k & [Hk Ho] & Hkb).
  pose proof (stops_in_fuel n k Hn Hkb) as Hfuel.
  destruct (turtle_path_complete math Collatz.next_n Collatz._left
              Collatz._right Collatz._init_h Collatz.Z_STEP "binary"
              (collatz_next_positive "binary" (or_introl eq_refl)) k n k)
    as (xs & ys & zs & Hp & Hx & Hy & Hz & _); try assumption; try lia.
  exists k, xs, ys, zs. repeat (split; [assumption |]). assumption.
Qed.

Lemma dash_path_below_million (math : libm) (n : Z)
    (left_deg right_deg z_step : float) :
  1 <= n < 1000000 ->
  exists k xs ys zs,
    stopping_time Collatz.next_n "binary" k n = Some k
    /\ Dash.collatz_path_3d math k n left_deg right_deg z_step "binary"
       = Done (xs, ys, zs)
    /\ List.length xs = S k /\ List.length ys = S k /\ List.length zs = S k.
Proof.
  intros Hn. destruct (MachineFacts.below_million_stops n Hn) as (k & [Hk Ho] & Hkb).
  pose proof (stops_in_fuel n k Hn Hkb) as Hfuel.
  destruct (turtle_path_complete math Dash.next_n (radians left_deg)
              (radians right_deg) (radians (-75)) z_step "binary"
              (dash_next_positive "binary" (or_introl eq_refl)) k n k)
    as (xs & ys & zs & Hp & Hx & Hy & Hz & _); try assumption; try lia.
  - rewrite (stopping_time_ext Dash.next_n Collatz.next_n "binary");
      [exact Hk | reflexivity].
  - rewrite (orbit_ext Dash.next_n Collatz.next_n "binary");
      [exact Ho | reflexivity].
  - exists k, xs, ys, zs. repeat (split; [assumption |]). assumption.
Qed.

Lemma old2_path_below_million (math : libm) (n : Z) :
  1 <= n < 1000000 ->
  exists k xs ys zs,
    stopping_time Collatz.next_n "binary" k n = Some k
    /\ Old2.collatz_path_3d math k n "binary" = Done (xs, ys, zs)
    /\ List.length xs = S k /\ List.length ys = S k /\ List.length zs = S k.
Proof.
  intros Hn. destruct (MachineFacts.below_million_stops n Hn) as (k & [Hk Ho] & Hkb).
  pose proof (old2_while_loop math "binary" k (Old2.start_walk n)
                (or_introl eq_refl)) as H.
  change (Old2.w_n (Old2.start_walk n)) with n in H.
  rewrite (stopping_time_ext Old2.next_n Collatz.next_n "binary"),
    (orbit_ext Old2.next_n Collatz.next_n "binary"), Hk in H
    by reflexivity.
  destruct (H ltac:(lia) Ho) as (st & Hrun & Hx & Hy & Hz & _).
  exists k, (Old2.w_xs st), (Old2.w_ys st), (Old2.w_zs st).
  unfold Old2.collatz_path_3d. rewrite Hrun.
  split; [exact Hk |]. split; [reflexivity |]. cbn in Hx, Hy, Hz.
  split; [exact Hx |]. split; [exact Hy | exact Hz].
Qed.



(** ** The default run of [src/collatz.py] *)

(** The loop of [plot_shrub] over starts below one million draws them
    all, given fuel enough for the longest trajectory. *)
Lemma collatz_plot_lines_return (math : libm) (n_samples : Z) (w : float)
    (starts : list Z) :
  Collatz.linewidth n_samples = Return w ->
  (forall s, In s starts -> 1 <= s < 1000000) ->
  exists fuel lines,
    List.length lines = List.length starts
    /\ forall extra,
         Collatz.plot_lines math (fuel + extra) "binary" n_samples starts
         = Done lines.
Proof.
  intros Hw. induction starts as [| s rest IH]; intros Hin.
  - exists 0%nat, []. split; reflexivity.
  - destruct (collatz_path_below_million math s (Hin s (or_introl eq_refl)))
      as (k & xs & ys & zs & _ & Hp & _).
    destruct IH as (fuel & lines & Hlen & Hrest).
    { intros v Hv. apply Hin. right. exact Hv. }
    exists (k + fuel)%nat, (((xs, ys, zs), w) :: lines).
    split; [cbn [List.length]; rewrite Hlen; reflexivity |].
    intros extra. cbn [Collatz.plot_lines].
    replace (k + fuel + extra)%nat with (k + (fuel + extra))%nat by lia.
    unfold Collatz.collatz_path_3d in *.
    rewrite (turtle_path_more_fuel _ _ _ _ _ _ _ _ (fuel + extra) _ _ Hp).
    rewrite Hw.
    replace (k + (fuel + extra))%nat with (fuel + (k + extra))%nat by lia.
    rewrite Hrest. reflexivity.
Qed.

(** X14: [plot_shrub] of [src/collatz.py] under the binary scheme, with a
    sample that fits and [max_start] up to the default 1,000,000, returns
    once the trajectories have had iterations enough: it draws one line
    per starting value, [n_samples] of them or one more for the reference
    value, all of the width [2.0 / (n_samples / 100)] (given that this
    width can be computed and that the calls of lines 111-120 return). *)
Theorem plot_shrub_binary_returns (choose : list Z -> nat -> list Z)
    (colours : list Z -> Z -> result unit) (math : libm)
    (n_samples max_start : Z) (w : float) :
  draws_without_replacement choose ->
  0 <= n_samples <= max_start - 2 -> max_start <= 1000000 ->
  Collatz.linewidth n_samples = Return w ->
  (forall starts, colours starts max_start = Return tt) ->
  exists fuel lines,
    (forall extra,
       Collatz.plot_shrub choose colours math (fuel + extra) n_samples
         max_start "binary"
       = Done lines)
    /\ n_samples <= Z.of_nat (List.length lines) <= n_samples + 1
    /\ Forall (fun line => snd line = w) lines.
Proof.
  intros Hdraw Hn Hmax Hw Hcol.
  destruct (random_sample_returns choose (range 2 max_start) n_samples Hdraw)
    as (Hs & Hl & Hin & _).
  { rewrite range_length. lia. }
  set (drawn := choose (range 2 max_start) (Z.to_nat n_samples)) in *.
  assert (Hdrawn : forall s, In s drawn -> 1 <= s < 1000000).
  { intros s Hsd. apply Hin, range_In in Hsd. lia. }
  assert (Hstarts : exists starts,
            Collatz.plot_shrub_starts choose n_samples max_start "binary"
            = Return starts
            /\ (forall s, In s starts -> 1 <= s < 1000000)
            /\ n_samples <= Z.of_nat (List.length starts) <= n_samples + 1).
  { unfold Collatz.plot_shrub_starts. rewrite Hs. cbn [bind].
    destruct (mem (Collatz.hero "binary") drawn); cbn [negb];
      eexists; (split; [reflexivity |]); split.
    - exact Hdrawn.
    - lia.
    - intros s Hsd. apply in_app_or in Hsd. destruct Hsd as [Hsd | [<- | []]];
        [apply Hdrawn, Hsd | split; [discriminate | reflexivity]].
    - rewrite length_app. cbn [List.length]. lia. }
  destruct Hstarts as (starts & Hst & Hrange & Hlen).
  destruct (collatz_plot_lines_return math n_samples w starts Hw Hrange)
    as (fuel & lines & Hll & Hrun).
  exists fuel, lines. split; [| split].
  - intros extra. unfold Collatz.plot_shrub. rewrite Hst. cbn [bind].
    rewrite Hcol. cbn [bind]. apply Hrun.
  - rewrite Hll. exact Hlen.
  - specialize (Hrun 0%nat). clear - Hrun Hw.
    revert lines Hrun. generalize (fuel + 0)%nat. intros f.
    induction starts as [| s rest IH]; intros lines H;
      cbn [Collatz.plot_lines] in H.
    + injection H as <-. constructor.
    + destruct (Collatz.collatz_path_3d math f s "binary"); try discriminate H.
      rewrite Hw in H.
      destruct (Collatz.plot_lines math f "binary" n_samples rest) as [ls | |];
        try discriminate H.
      injection H as <-. constructor; [reflexivity | apply IH; reflexivity].
Qed.

Lemma plot_shrub_binary_returns_witness :
  draws_without_replacement first_k
  /\ 0 <= 1000 <= 1000000 - 2 /\ 1000000 <= 1000000
  /\ Collatz.linewidth 1000 = Return 0x1.999999999999ap-3%float
  /\ (forall starts : list Z,
        (fun (_ : list Z) (_ : Z) => Return tt) starts 1000000 = Return tt)
  /\ forall math, exists fuel lines,
       (forall extra,
          Collatz.plot_shrub first_k (fun _ _ => Return tt) math (fuel + extra)
            1000 1000000 "binary"
          = Done lines)
       /\ 1000 <= Z.of_nat (List.length lines) <= 1000 + 1
       /\ Forall (fun line => snd line = 0x1.999999999999ap-3%float) lines.
Proof.
  assert (H1 : 0 <= 1000 <= 1000000 - 2) by (split; discriminate).
  assert (H2 : 1000000 <= 1000000) by discriminate.
  assert (H3 : Collatz.linewidth 1000 = Return 0x1.999999999999ap-3%float)
    by (vm_compute; reflexivity).
  split; [exact first_k_draws |]. split; [exact H1 |]. split; [exact H2 |].
  split; [exact H3 |]. split; [reflexivity |]. intros math.
  exact (plot_shrub_binary_returns first_k (fun _ _ => Return tt) math 1000
           1000000 _ first_k_draws H1 H2 H3 (fun _ => eq_refl)).
Defined.

(** ** The default run of [src/collatz_dash.py] *)

Lemma update_shrub_first_start (choose : list Z -> nat -> list Z)
    (n_starts max_start : option Z) :
  draws_without_replacement choose ->
  exists s rest,
    Dash.update_shrub_starts choose n_starts max_start = Return (s :: rest)
    /\ 2 <= s < Z.max 10 (Dash.or_default max_start 1000000).
Proof.
  intros Hdraw.
  set (count := Z.max 1 (Dash.or_default n_starts 1000)).
  set (bound := Z.max 10 (Dash.or_default max_start 1000000)).
  set (population := range 2 bound).
  assert (Hlen : Z.of_nat (List.length population) = bound - 2).
  { unfold population. rewrite range_length. unfold bound. lia. }
  set (k := Z.min count (Z.of_nat (List.length population))).
  assert (Hk : 0 <= k <= Z.of_nat (List.length population))
    by (unfold k, count; lia).
  destruct (random_sample_returns choose population k Hdraw Hk)
    as (Hsample & Hl & Hin & _).
  assert (Hstarts : Dash.update_shrub_starts choose n_starts max_start
                    = Return (choose population (Z.to_nat k))) by exact Hsample.
  destruct (choose population (Z.to_nat k)) as [| s rest] eqn:Hc.
  { cbn [List.length] in Hl. unfold k, count, bound in *. lia. }
  exists s, rest. split; [exact Hstarts |].
  assert (In s population) by (apply Hin; left; reflexivity).
  apply range_In in H. exact H.
Qed.



(** ** The default run of [src/old2.py] *)

Lemma old2_plot_lines_return (math : libm) (starts : list Z) :
  (forall s, In s starts -> 1 <= s < 1000000) ->
  exists fuel lines,
    List.length lines = List.length starts
    /\ forall extra,
         Old2.plot_lines math (fuel + extra) "binary" starts = Done lines.
Proof.
  induction starts as [| s rest IH]; intros Hin.
  - exists 0%nat, []. split; reflexivity.
  - destruct (old2_path_below_million math s (Hin s (or_introl eq_refl)))
      as (k & xs & ys & zs & _ & Hp & _).
    destruct IH as (fuel & lines & Hlen & Hrest).
    { intros v Hv. apply Hin. right. exact Hv. }
    exists (k + fuel)%nat, ((xs, ys, zs) :: lines).
    split; [cbn [List.length]; rewrite Hlen; reflexivity |].
    intros extra. cbn [Old2.plot_lines].
    replace (k + fuel + extra)%nat with (k + (fuel + extra))%nat by lia.
    rewrite (old2_path_more_fuel _ _ _ (fuel + extra) _ _ Hp).
    replace (k + (fuel + extra))%nat with (fuel + (k + extra))%nat by lia.
    rewrite Hrest. reflexivity.
Qed.



(** ** The script [src/old1.py] *)

(** The loop of [src/old1.py] follows the binary rule: from a positive
    value whose sequence stays below 2^1023 it returns after as many
    iterations as the sequence takes to reach 1, and is still iterating
    as long as the sequence has not reached 1. *)
Lemma old1_while_loop (math : libm) (left_deg right_deg : float) (fuel : nat)
    (st : Old1.pen) :
  1 <= Old1.p_n st ->
  Forall (fun v => v < 2 ^ 1023)
    (orbit Collatz.next_n "binary" fuel (Old1.p_n st)) ->
  match stopping_time Collatz.next_n "binary" fuel (Old1.p_n st) with
  | Some k =>
      exists st',
        Old1.while_loop math left_deg right_deg fuel st = Done st'
        /\ List.length (Old1.p_xs st') = (List.length (Old1.p_xs st) + k)%nat
        /\ List.length (Old1.p_ys st') = (List.length (Old1.p_ys st) + k)%nat
        /\ (forall a, hd_error (Old1.p_xs st) = Some a ->
                      hd_error (Old1.p_xs st') = Some a)
        /\ (forall a, hd_error (Old1.p_ys st) = Some a ->
                      hd_error (Old1.p_ys st') = Some a)
  | None =>
      exists st', Old1.while_loop math left_deg right_deg fuel st = Running st'
  end.
Proof.
  revert st.
  induction fuel as [| fuel IH]; intros st Hn Hb;
    cbn [Old1.while_loop stopping_time orbit] in *;
    destruct (Old1.p_n st =? 1) eqn:H1.
  - exists st. rewrite !Nat.add_0_r. repeat split; auto.
  - exists st. reflexivity.
  - exists st. rewrite !Nat.add_0_r. repeat split; auto.
  - destruct (collatz_next_positive "binary" (or_introl eq_refl) _ Hn)
      as (m & Hnext & Hm).
    rewrite Hnext in *. apply Forall_inv_tail in Hb.
    assert (Hmb : m < 2 ^ 1023).
    { destruct fuel; cbn [orbit] in Hb; apply Forall_inv in Hb; exact Hb. }
    assert (Hrule : (if Old1.p_n st mod 2 =? 0 then Old1.p_n st / 2
                     else 3 * Old1.p_n st + 1) = m).
    { change (Collatz.next_n (Old1.p_n st) "binary")
        with (Return (if Old1.p_n st mod 2 =? 0 then Old1.p_n st / 2
                      else 3 * Old1.p_n st + 1)) in Hnext.
      injection Hnext as <-. reflexivity. }
    unfold Old1.iteration. cbv zeta. rewrite Hrule.
    rewrite step_length_positive by lia.
    rewrite (float_of_int_small m) by lia. cbn [bind].
    match goal with
    | |- context [Old1.while_loop math left_deg right_deg fuel ?s] =>
        set (st1 := s)
    end.
    specialize (IH st1 Hm Hb). change (Old1.p_n st1) with m in IH.
    destruct (stopping_time Collatz.next_n "binary" fuel m) as [k |];
      cbn [option_map].
    + destruct IH as (st' & Hrun & Hx & Hy & Hhx & Hhy).
      exists st'. split; [exact Hrun |].
      unfold st1 in Hx, Hy, Hhx, Hhy.
      cbn [Old1.p_xs Old1.p_ys] in Hx, Hy, Hhx, Hhy.
      rewrite length_app in Hx, Hy. cbn [List.length] in Hx, Hy.
      split; [lia |]. split; [lia |].
      split; intros a Ha; [apply Hhx | apply Hhy]; apply hd_error_app, Ha.
    + exact IH.
Qed.

Lemma old1_path_more_fuel (math : libm) (left_deg right_deg : float)
    (fuel extra : nat) (n : Z) (p : list float * list float) :
  Old1.collatz_path math fuel n left_deg right_deg = Done p ->
  Old1.collatz_path math (fuel + extra) n left_deg right_deg = Done p.
Proof.
  unfold Old1.collatz_path. generalize (Old1.start_pen n). intros st H.
  assert (Hloop : forall st st',
            Old1.while_loop math left_deg right_deg fuel st = Done st' ->
            Old1.while_loop math left_deg right_deg (fuel + extra) st
            = Done st').
  { clear. induction fuel as [| fuel IH]; intros st st' H.
    - cbn [Old1.while_loop] in H.
      destruct extra; cbn [Nat.add Old1.while_loop];
        destruct (Old1.p_n st =? 1); congruence.
    - cbn [Nat.add Old1.while_loop] in *.
      destruct (Old1.p_n st =? 1); [exact H |].
      destruct (Old1.iteration math left_deg right_deg st);
        [apply IH, H | discriminate]. }
  destruct (Old1.while_loop math left_deg right_deg fuel st) as [st' | |]
    eqn:Hrun; try discriminate H.
  rewrite (Hloop _ _ Hrun). exact H.
Qed.

Lemma old1_path_below_million (math : libm) (n : Z)
    (left_deg right_deg : float) :
  1 <= n < 1000000 ->
  exists k xs ys,
    stopping_time Collatz.next_n "binary" k n = Some k
    /\ Old1.collatz_path math k n left_deg right_deg = Done (xs, ys)
    /\ List.length xs = S k /\ List.length ys = S k
    /\ hd_error xs = Some 0%float /\ hd_error ys = Some 0%float.
Proof.
  intros Hn.
  destruct (MachineFacts.below_million_stops n Hn) as (k & [Hk Ho] & Hkb).
  pose proof (old1_while_loop math left_deg right_deg k (Old1.start_pen n))
    as H.
  change (Old1.p_n (Old1.start_pen n)) with n in H. rewrite Hk in H.
  destruct (H ltac:(lia) Ho) as (st & Hrun & Hx & Hy & Hhx & Hhy).
  exists k, (Old1.p_xs st), (Old1.p_ys st).
  unfold Old1.collatz_path. rewrite Hrun.
  split; [exact Hk |]. split; [reflexivity |]. cbn in Hx, Hy.
  split; [exact Hx |]. split; [exact Hy |].
  split; [apply Hhx | apply Hhy]; reflexivity.
Qed.

Lemma old1_plot_paths_return (math : libm) (starts : list Z) :
  (forall s, In s starts -> 1 <= s < 1000000) ->
  exists fuel ps,
    List.length ps = List.length starts
    /\ forall extra, Old1.plot_paths math (fuel + extra) starts = Done ps.
Proof.
  induction starts as [| s rest IH]; intros Hin.
  - exists 0%nat, []. split; reflexivity.
  - destruct (old1_path_below_million math s 0x1.699999999999ap+2 8
                (Hin s (or_introl eq_refl)))
      as (k & xs & ys & _ & Hp & _).
    destruct IH as (fuel & ps & Hlen & Hrest).
    { intros v Hv. apply Hin. right. exact Hv. }
    exists (k + fuel)%nat, ((xs, ys) :: ps).
    split; [cbn [List.length]; rewrite Hlen; reflexivity |].
    intros extra. cbn [Old1.plot_paths]. unfold Old1.default_path.
    replace (k + fuel + extra)%nat with (k + (fuel + extra))%nat by lia.
    rewrite (old1_path_more_fuel _ _ _ _ (fuel + extra) _ _ Hp).
    replace (k + (fuel + extra))%nat with (fuel + (k + extra))%nat by lia.
    rewrite Hrest. reflexivity.
Qed.

Lemma range_length_Z (a b : Z) :
  a <= b -> Z.of_nat (List.length (range a b)) = b - a.
Proof. intros H. rewrite range_length. lia. Qed.


